(** * Breast-cancer survival prediction: the prediction pipeline

    A shallow embedding of the two Python entry points of the repository,

    - [fast-api/main.py]: the pydantic model [PatientData] with its field
      validators, [to_model_dict], [predict_survival] and the [/predict]
      endpoint;
    - [linear-regression/predict_survival.py]: the same [predict_survival]
      function used by the command-line tool.

    Numbers.  A day estimate is a finite double in the program; every finite
    double is a rational, so estimates are of type [Q] and the comparisons
    of the risk stratification are the exact comparisons of [Q].  NaN and
    the infinities are outside this model, and so is the rounding error of
    the two divisions and of [round] at one and two decimals.

    Strings are byte strings; [upper] and [capitalize] act on the ASCII
    letters, which is all the validators ever compare against.  Python
    also maps a few letters outside ASCII onto ASCII capitals (the dotless
    i onto I); submissions with such letters are outside this model. *)

From Stdlib Require Import Ascii QArith Qround Lqa.
From stdpp Require Import gmap strings list fin_maps pretty.

Local Open Scope string_scope.

(** ** Python strings *)

Module PyStr.

Definition is_lower (c : ascii) : bool :=
  let n := nat_of_ascii c in Nat.leb 97 n && Nat.leb n 122.

Definition is_upper (c : ascii) : bool :=
  let n := nat_of_ascii c in Nat.leb 65 n && Nat.leb n 90.

Definition upper_char (c : ascii) : ascii :=
  if is_lower c then ascii_of_nat (nat_of_ascii c - 32) else c.

Definition lower_char (c : ascii) : ascii :=
  if is_upper c then ascii_of_nat (nat_of_ascii c + 32) else c.

(** [s.upper()] *)
Fixpoint upper (s : string) : string :=
  match s with
  | EmptyString => EmptyString
  | String c r => String (upper_char c) (upper r)
  end.

(** [s.lower()] *)
Fixpoint lower (s : string) : string :=
  match s with
  | EmptyString => EmptyString
  | String c r => String (lower_char c) (lower r)
  end.

(** [s.capitalize()]: first character upper-cased, the rest lower-cased. *)
Definition capitalize (s : string) : string :=
  match s with
  | EmptyString => EmptyString
  | String c r => String (upper_char c) (lower r)
  end.

(** [x in l] for a list of strings. *)
Definition mem (x : string) (l : list string) : bool :=
  bool_decide (x ∈ l).

(** [repr] of a list of plain strings, as an f-string prints it:
    ['a', 'b'] with single quotes. *)
Fixpoint repr_items (l : list string) : string :=
  match l with
  | [] => EmptyString
  | [x] => "'" +:+ x +:+ "'"
  | x :: r => "'" +:+ x +:+ "', " +:+ repr_items r
  end.

Definition repr_list (l : list string) : string :=
  "[" +:+ repr_items l +:+ "]".

End PyStr.

(** ** Python numbers *)

Module PyNum.

Local Open Scope Q_scope.

(** [a < b] on day estimates. *)
Definition Qltb (a b : Q) : bool := negb (Qle_bool b a).

(** Round half to even, the rule of Python's and numpy's [round]. *)
Definition rint (x : Q) : Z :=
  let f := Qfloor x in
  let r := x - inject_Z f in
  if Qltb r (1#2) then f
  else if Qltb (1#2) r then (f + 1)%Z
  else if Z.even f then f else (f + 1)%Z.

Definition pow10 (ndigits : nat) : Q := inject_Z (10 ^ Z.of_nat ndigits).

(** [round(x, ndigits)] *)
Definition round (x : Q) (ndigits : nat) : Q :=
  inject_Z (rint (x * pow10 ndigits)) / pow10 ndigits.

End PyNum.

(** ** Risk stratification and the prediction result *)

(** The dict returned by [predict_survival]. *)
Record PredictionResult := mkResult {
  predicted_days : Q;
  predicted_months : Q;
  predicted_years : Q;
  risk_category : string;
  risk_color : string;
  recommendation : string
}.

(** The [if]/[elif] chain of [predict_survival]: (risk, color, action). *)
Definition risk_stratification (predicted_days : Q) : string * string * string :=
  if PyNum.Qltb predicted_days 180 then
    ("HIGH RISK", "🔴",
     "Immediate intensive care and close monitoring required")
  else if PyNum.Qltb predicted_days 365 then
    ("ELEVATED RISK", "🟠",
     "Enhanced monitoring and aggressive treatment recommended")
  else if PyNum.Qltb predicted_days 730 then
    ("MODERATE RISK", "🟡",
     "Standard treatment protocol with regular follow-ups")
  else
    ("LOWER RISK", "🟢",
     "Standard care with routine monitoring").

(** Everything [predict_survival] does after [model.predict]: the two
    divisions, the stratification on the raw estimate, and the rounding
    of the three figures in the returned dict. The tier fields and
    [predicted_days] are as the program computes them; [predicted_months]
    and [predicted_years] are divided and rounded exactly here and in
    floating point there, so they can differ in the last digit. *)
Definition report (predicted_days : Q) : PredictionResult :=
  let predicted_months := (predicted_days / 30)%Q in
  let predicted_years := (predicted_days / 365)%Q in
  let '(risk, color, action) := risk_stratification predicted_days in
  {| predicted_days := PyNum.round predicted_days 0;
     predicted_months := PyNum.round predicted_months 1;
     predicted_years := PyNum.round predicted_years 2;
     risk_category := risk;
     risk_color := color;
     recommendation := action |}.

(** ** Python values, exceptions and the loaded artifacts *)

(** A cell of the one-row frame: what a dict value of a patient record
    can be, and what the encoders put in its place. *)
Inductive value :=
  | VInt (n : Z)
  | VFloat (x : Q)
  | VStr (s : string).

Definition is_numeric (v : value) : bool :=
  match v with
  | VInt _ | VFloat _ => true
  | VStr _ => false
  end.

Inductive exn :=
  | ValueError (msg : string)
  | KeyError (msg : string)
  | TypeError (msg : string)
  | RuntimeError (msg : string).

(** [str(e)] *)
Definition str_exn (e : exn) : string :=
  match e with
  | ValueError msg | KeyError msg | TypeError msg | RuntimeError msg => msg
  end.

(** Code that may raise: [inl e] is the exception [e] propagating. *)
Definition raising (A : Type) : Type := exn + A.

#[global] Instance raising_ret : MRet raising := fun _ x => inr x.
#[global] Instance raising_bind : MBind raising := fun _ _ f m =>
  match m with
  | inl e => inl e
  | inr x => f x
  end.

(** A fitted [LabelEncoder]: [transform] gives the integer code of a known
    class and raises [ValueError] on an unseen one ([None] here). *)
Record LabelEncoder := { le_transform : string -> option Z }.

(** The fitted scaler: [transform] takes the one-row frame, columns in
    order, and gives the scaled row, or raises. *)
Record Scaler := { scaler_transform : list (string * value) -> raising (list Q) }.

(** The trained regressor: [predict(row)[0]], or an exception. *)
Record Regressor := { model_predict : list Q -> raising Q }.

(** [model_metadata.json]. *)
Record Metadata := {
  features : list string;
  model_name : string;
  test_r2 : Q;
  test_rmse : Q
}.

(** The module-level globals loaded once by [joblib.load] and
    [json.load]; [label_encoders] is a dict keyed by column name. *)
Record Artifacts := {
  model : Regressor;
  scaler : Scaler;
  label_encoders : gmap string LabelEncoder;
  metadata : Metadata
}.

(** ** [predict_survival] *)

Section Pipeline.

(** [str] of a float cell: Python's shortest round-trip formatting,
    a function of the double that is taken as given. *)
Variable float_str : Q -> string.

Variable art : Artifacts.

(** [df[col].astype(str)] on the single cell of the column. *)
Definition astype_str (v : value) : string :=
  match v with
  | VStr s => s
  | VInt n => pretty n
  | VFloat x => float_str x
  end.

(** The one-row frame [pd.DataFrame([patient_data])] is the finite map
    from a column name to its cell. The function reaches columns by name
    only, and the order of the columns that go to the scaler is fixed by
    the selection [df[metadata['features']]] at the end. *)

(** One turn of the loop over [metadata['features']]:
    [if feature not in df.columns: df[feature] = 0]. *)
Definition fill_feature (df : gmap string value) (feature : string)
  : gmap string value :=
  match df !! feature with
  | None => <[feature := VInt 0]> df
  | Some _ => df
  end.

Definition fill_missing (df : gmap string value) : gmap string value :=
  foldl fill_feature df (features (metadata art)).

(** One turn of the loop over [label_encoders.items()]. *)
Definition encode_column (df : gmap string value)
    (item : string * LabelEncoder) : gmap string value :=
  let '(col, le) := item in
  match df !! col with
  | Some v =>
      match le_transform le (astype_str v) with
      | Some code => <[col := VInt code]> df
      | None => <[col := VInt 0]> df   (* except ValueError *)
      end
  | None => df
  end.

Definition encode (df : gmap string value) : gmap string value :=
  foldl encode_column df (map_to_list (label_encoders art)).

(** [df[cols]]: the listed columns in the listed order; pandas raises
    [KeyError] on a name that is not a column. *)
Fixpoint select (cols : list string) (df : gmap string value)
  : raising (list (string * value)) :=
  match cols with
  | [] => mret []
  | c :: rest =>
      match df !! c with
      | None => inl (KeyError ("['" +:+ c +:+ "'] not in index"))
      | Some v => row ← select rest df; mret ((c, v) :: row)
      end
  end.

(** The frame handed to the scaler: lines 1 to 4 of the function body
    (create, fill, encode, reorder). *)
Definition align (patient_data : gmap string value)
  : raising (list (string * value)) :=
  let df := patient_data in
  let df := fill_missing df in
  let df := encode df in
  select (features (metadata art)) df.

Definition predict_survival (patient_data : gmap string value)
  : raising PredictionResult :=
  df ← align patient_data;
  df_scaled ← scaler_transform (scaler art) df;
  predicted_days ← model_predict (model art) df_scaled;
  mret (report predicted_days).

End Pipeline.

(** ** The request model [PatientData] *)

(** A validated instance of the pydantic model. *)
Record PatientData := mkPatientData {
  Age : Z;
  Gender : string;
  Protein1 : Q;
  Protein2 : Q;
  Protein3 : Q;
  Protein4 : Q;
  Tumour_Stage : string;
  Histology : string;
  ER_status : string;
  PR_status : string;
  HER2_status : string;
  Surgery_type : string
}.

(** The submitted JSON object, already typed: [None] is an absent key. *)
Record RawPatient := mkRawPatient {
  raw_Age : option Z;
  raw_Gender : option string;
  raw_Protein1 : option Q;
  raw_Protein2 : option Q;
  raw_Protein3 : option Q;
  raw_Protein4 : option Q;
  raw_Tumour_Stage : option string;
  raw_Histology : option string;
  raw_ER_status : option string;
  raw_PR_status : option string;
  raw_HER2_status : option string;
  raw_Surgery_type : option string
}.

(** The kinds of error pydantic reports for this model: a required field
    that is absent, a [ge] or [le] bound, and a [ValueError] raised by a
    field validator (with its message). *)
Inductive error_type :=
  | missing
  | greater_than_equal (ge : Q)
  | less_than_equal (le : Q)
  | value_error (msg : string).

(** One entry of a validation error: [loc] is the field as submitted
    (its alias where it has one; a body that uses the field name
    [ER_status], which [populate_by_name] allows, is not told apart from
    one that uses the alias). *)
Record ErrorDetail := { loc : string; err : error_type }.

Definition checked (A : Type) : Type := list ErrorDetail + A.

(** Fields are validated one after the other and the errors of all of
    them are collected. *)
Definition ap {A B : Type} (f : checked (A -> B)) (x : checked A) : checked B :=
  match f, x with
  | inr g, inr a => inr (g a)
  | inr _, inl ex => inl ex
  | inl ef, inr _ => inl ef
  | inl ef, inl ex => inl (ef ++ ex)%list
  end.

Definition field {A B : Type} (name : string) (input : option A)
    (check : A -> error_type + B) : checked B :=
  match input with
  | None => inl [ {| loc := name; err := missing |} ]
  | Some a =>
      match check a with
      | inl e => inl [ {| loc := name; err := e |} ]
      | inr b => inr b
      end
  end.

(** [Field(..., ge=lo, le=hi)] on an [int]. *)
Definition int_ge_le (lo hi : Z) (n : Z) : error_type + Z :=
  if (n <? lo)%Z then inl (greater_than_equal (inject_Z lo))
  else if (hi <? n)%Z then inl (less_than_equal (inject_Z hi))
  else inr n.

(** [Field(..., ge=lo, le=hi)] on a [float]. *)
Definition float_ge_le (lo hi : Q) (x : Q) : error_type + Q :=
  if PyNum.Qltb x lo then inl (greater_than_equal lo)
  else if PyNum.Qltb hi x then inl (less_than_equal hi)
  else inr x.

(** [Field(...)] on a [str] with no validator. *)
Definition any_str (s : string) : error_type + string := inr s.

(** A [field_validator]: its [ValueError] becomes a [value_error]. *)
Definition validator (f : string -> raising string) (s : string)
  : error_type + string :=
  match f s with
  | inl e => inl (value_error (str_exn e))
  | inr v => inr v
  end.

Definition validate_gender (v : string) : raising string :=
  let allowed := ["MALE"; "FEMALE"; "Male"; "Female"; "male"; "female"] in
  if negb (PyStr.mem (PyStr.upper v) (map PyStr.upper allowed)) then
    inl (ValueError ("Gender must be one of: " +:+ PyStr.repr_list allowed))
  else mret (PyStr.upper v).

Definition validate_tumour_stage (v : string) : raising string :=
  let allowed := ["I"; "II"; "III"] in
  if negb (PyStr.mem (PyStr.upper v) allowed) then
    inl (ValueError ("Tumour_Stage must be one of: " +:+ PyStr.repr_list allowed))
  else mret (PyStr.upper v).

Definition status_allowed : list string :=
  ["Positive"; "Negative"; "positive"; "negative"; "POSITIVE"; "NEGATIVE"].

Definition validate_status (v : string) : raising string :=
  let allowed := status_allowed in
  if negb (PyStr.mem v allowed) then
    inl (ValueError ("Status must be one of: " +:+ PyStr.repr_list allowed))
  else mret (PyStr.capitalize v).

(** Construction of a [PatientData] from a submission. *)
Definition validate (raw : RawPatient) : checked PatientData :=
  ap (ap (ap (ap (ap (ap (ap (ap (ap (ap (ap (ap (inr mkPatientData)
    (field "Age" (raw_Age raw) (int_ge_le 18 100)))
    (field "Gender" (raw_Gender raw) (validator validate_gender)))
    (field "Protein1" (raw_Protein1 raw) (float_ge_le (-5) 5)))
    (field "Protein2" (raw_Protein2 raw) (float_ge_le (-5) 5)))
    (field "Protein3" (raw_Protein3 raw) (float_ge_le (-5) 5)))
    (field "Protein4" (raw_Protein4 raw) (float_ge_le (-5) 5)))
    (field "Tumour_Stage" (raw_Tumour_Stage raw) (validator validate_tumour_stage)))
    (field "Histology" (raw_Histology raw) any_str))
    (field "ER status" (raw_ER_status raw) (validator validate_status)))
    (field "PR status" (raw_PR_status raw) (validator validate_status)))
    (field "HER2 status" (raw_HER2_status raw) (validator validate_status)))
    (field "Surgery_type" (raw_Surgery_type raw) any_str).

(** [self.model_dump(by_alias=False)] *)
Definition model_dump (p : PatientData) : gmap string value :=
  list_to_map
    [ ("Age", VInt (Age p)); ("Gender", VStr (Gender p));
      ("Protein1", VFloat (Protein1 p)); ("Protein2", VFloat (Protein2 p));
      ("Protein3", VFloat (Protein3 p)); ("Protein4", VFloat (Protein4 p));
      ("Tumour_Stage", VStr (Tumour_Stage p)); ("Histology", VStr (Histology p));
      ("ER_status", VStr (ER_status p)); ("PR_status", VStr (PR_status p));
      ("HER2_status", VStr (HER2_status p));
      ("Surgery_type", VStr (Surgery_type p)) ].

(** [data.pop(key)] *)
Definition pop (key : string) (data : gmap string value)
  : raising (value * gmap string value) :=
  match data !! key with
  | Some v => mret (v, delete key data)
  | None => inl (KeyError ("'" +:+ key +:+ "'"))
  end.

Definition to_model_dict (p : PatientData) : raising (gmap string value) :=
  let data := model_dump p in
  '(v, data) ← pop "ER_status" data;
  let data := <["ER status" := v]> data in
  '(v, data) ← pop "PR_status" data;
  let data := <["PR status" := v]> data in
  '(v, data) ← pop "HER2_status" data;
  let data := <["HER2 status" := v]> data in
  mret data.

(** ** The [/predict] endpoint *)

Inductive Response :=
  | Ok200 (body : PredictionResult)
  | HTTPException (status_code : Z) (detail : string)
  | RequestValidationError (errors : list ErrorDetail).

(** The handler: the whole body is inside [try], and any exception is
    turned into [HTTPException(500, f"Prediction error: {str(e)}")]. *)
Definition predict (float_str : Q -> string) (art : Artifacts)
    (patient_data : PatientData) : Response :=
  match
    patient_dict ← to_model_dict patient_data;
    predict_survival float_str art patient_dict
  with
  | inr result => Ok200 result
  | inl e => HTTPException 500 ("Prediction error: " +:+ str_exn e)
  end.

(** A request: the body is validated into a [PatientData] before the
    handler runs; a body that does not validate never reaches it. *)
Definition post_predict (float_str : Q -> string) (art : Artifacts)
    (raw : RawPatient) : Response :=
  match validate raw with
  | inl errors => RequestValidationError errors
  | inr patient_data => predict float_str art patient_data
  end.

(** ** The command-line tool: [interactive_mode] and [batch_predict]

    What is read from the terminal and from the CSV file is given: the
    answers typed at the prompts, each already stripped, and the rows of the
    file as [pd.read_csv] returned them. What is printed is not modelled
    beyond the result or the exception that the printed lines show. *)

(** The answers to the eleven prompts of [interactive_mode], in order. *)
Record Answers := mkAnswers {
  ans_age : string;
  ans_p1 : string;
  ans_p2 : string;
  ans_p3 : string;
  ans_p4 : string;
  ans_stage : string;
  ans_hist : string;
  ans_er : string;
  ans_pr : string;
  ans_her2 : string;
  ans_surg : string
}.

(** One row of [batch_predictions.csv]. *)
Record BatchRow := mkBatchRow {
  Patient_ID : Z;
  Predicted_Days : Q;
  Predicted_Months : Q;
  Risk_Category : string;
  Recommendation : string
}.

(** What [batch_predict] leaves behind: the rows written to the output
    file, if it was written, and then either the risk distribution, a
    count and a percentage per category, or the exception whose message is
    printed. *)
Record BatchOutcome := mkBatchOutcome {
  saved : option (list BatchRow);
  distribution : raising (gmap string (nat * Q))
}.

Definition histology_map : gmap string string :=
  {[ "1" := "Infiltrating Ductal Carcinoma";
     "2" := "Infiltrating Lobular Carcinoma";
     "3" := "Mucinous Carcinoma" ]}.

Definition surgery_map : gmap string string :=
  {[ "1" := "Lumpectomy";
     "2" := "Mastectomy";
     "3" := "Modified Radical Mastectomy";
     "4" := "Other" ]}.

(** [series.value_counts()]: each value that occurs, with the number of
    its occurrences. The order in which the Series lists them is not
    modelled. *)
Definition value_counts (values : list string) : gmap string nat :=
  foldr (fun v counts => <[v := S (default 0%nat (counts !! v))]> counts) ∅ values.

Section CommandLine.

(** [int(s)] and [float(s)] on a non-empty answer: the number, or the
    exception Python raises. *)
Variable py_int : string -> raising Z.
Variable py_float : string -> raising Q.

Variable float_str : Q -> string.
Variable art : Artifacts.

(** [int(age) if age else 50]: the empty string is false. *)
Definition int_or (answer : string) (default : Z) : raising Z :=
  if bool_decide (answer = EmptyString) then mret default else py_int answer.

Definition float_or (answer : string) (default : Q) : raising Q :=
  if bool_decide (answer = EmptyString) then mret default else py_float answer.

(** [answer if answer in allowed else default] *)
Definition one_of (answer : string) (allowed : list string) (default : string)
  : string :=
  if PyStr.mem answer allowed then answer else default.

(** The dict [patient] that [interactive_mode] builds, key by key. *)
Definition interactive_patient (a : Answers) : raising (gmap string value) :=
  let patient : gmap string value := ∅ in
  age ← int_or (ans_age a) 50;
  let patient := <["Age" := VInt age]> patient in
  let patient := <["Gender" := VStr "FEMALE"]> patient in
  p1 ← float_or (ans_p1 a) (5 # 10);
  let patient := <["Protein1" := VFloat p1]> patient in
  p2 ← float_or (ans_p2 a) 1;
  let patient := <["Protein2" := VFloat p2]> patient in
  p3 ← float_or (ans_p3 a) 0;
  let patient := <["Protein3" := VFloat p3]> patient in
  p4 ← float_or (ans_p4 a) 0;
  let patient := <["Protein4" := VFloat p4]> patient in
  let patient :=
    <["Tumour_Stage" := VStr (one_of (ans_stage a) ["I"; "II"; "III"] "II")]>
      patient in
  let patient :=
    <["Histology" :=
        VStr (default "Infiltrating Ductal Carcinoma"
                (histology_map !! ans_hist a))]> patient in
  let patient :=
    <["ER status" := VStr (one_of (ans_er a) ["Positive"; "Negative"] "Positive")]>
      patient in
  let patient :=
    <["PR status" := VStr (one_of (ans_pr a) ["Positive"; "Negative"] "Positive")]>
      patient in
  let patient :=
    <["HER2 status" :=
        VStr (one_of (ans_her2 a) ["Positive"; "Negative"] "Negative")]>
      patient in
  let patient :=
    <["Surgery_type" := VStr (default "Lumpectomy" (surgery_map !! ans_surg a))]>
      patient in
  mret patient.

(** [interactive_mode]: the result whose fields are printed, or the
    exception printed by [except Exception]. *)
Definition interactive_mode (a : Answers) : raising PredictionResult :=
  patient ← interactive_patient a;
  predict_survival float_str art patient.

(** The [for idx, row in df.iterrows()] loop, [results] growing by one
    row per turn; an exception leaves the loop. *)
Fixpoint batch_loop (idx : nat) (rows : list (gmap string value))
    (results : list BatchRow) : raising (list BatchRow) :=
  match rows with
  | [] => mret results
  | patient :: rest =>
      result ← predict_survival float_str art patient;
      batch_loop (S idx) rest
        (results ++ [ {| Patient_ID := Z.of_nat idx + 1;
                         Predicted_Days := predicted_days result;
                         Predicted_Months := predicted_months result;
                         Risk_Category := risk_category result;
                         Recommendation := recommendation result |} ])%list
  end.

(** The lines of the risk distribution: [count] and
    [count / len(results_df) * 100]. *)
Definition risk_distribution (results : list BatchRow) : gmap string (nat * Q) :=
  let total := inject_Z (Z.of_nat (length results)) in
  (fun count => (count, (inject_Z (Z.of_nat count) / total * 100)%Q))
    <$> value_counts (Risk_Category <$> results).

(** [batch_predict] on the rows of the file. The frame of an empty list
    of results has no column, so [results_df['Risk_Category']] raises
    [KeyError] after the output file was written. *)
Definition batch_predict (rows : list (gmap string value)) : BatchOutcome :=
  match batch_loop 0 rows [] with
  | inl e => {| saved := None; distribution := inl e |}
  | inr results =>
      {| saved := Some results;
         distribution :=
           match results with
           | [] => inl (KeyError "'Risk_Category'")
           | _ :: _ => mret (risk_distribution results)
           end |}
  end.

End CommandLine.

(** ** Artifacts as scikit-learn fits them

    Concrete bundles on which the pipeline is run in the examples below:
    a label encoder over a list of classes, a standard scaler and a
    linear regressor. *)

Module Sklearn.

Fixpoint index_of (s : string) (classes : list string) (i : Z) : option Z :=
  match classes with
  | [] => None
  | c :: rest => if bool_decide (s = c) then Some i else index_of s rest (i + 1)
  end.

(** [LabelEncoder().fit(...)] with [classes_] as given, in the sorted
    order in which the encoder keeps them: the code of a class is its
    index. *)
Definition LabelEncoder_fit (classes : list string) : LabelEncoder :=
  {| le_transform := fun s => index_of s classes 0 |}.

Definition shape_error (estimator : string) (got expected : nat) : exn :=
  ValueError ("X has " +:+ pretty got +:+ " features, but " +:+ estimator
              +:+ " is expecting " +:+ pretty expected +:+ " features as input.").

(** The conversion of the row to floats; any text cell raises here (a
    real scaler converts text that reads as a number, which no example
    below contains). *)
Fixpoint to_floats (row : list (string * value)) : raising (list Q) :=
  match row with
  | [] => mret []
  | (_, VInt n) :: rest => xs ← to_floats rest; mret (inject_Z n :: xs)
  | (_, VFloat x) :: rest => xs ← to_floats rest; mret (x :: xs)
  | (_, VStr s) :: rest =>
      inl (ValueError ("could not convert string to float: '" +:+ s +:+ "'"))
  end.

(** [StandardScaler] with the given per-column mean and scale. *)
Definition StandardScaler (mean_scale : list (Q * Q)) : Scaler :=
  {| scaler_transform := fun row =>
       xs ← to_floats row;
       if bool_decide (length xs = length mean_scale) then
         mret (zip_with (fun x ms => ((x - fst ms) / snd ms)%Q) xs mean_scale)
       else inl (shape_error "StandardScaler" (length xs) (length mean_scale)) |}.

Fixpoint dot (coef xs : list Q) : Q :=
  match coef, xs with
  | c :: coef', x :: xs' => (c * x + dot coef' xs')%Q
  | _, _ => 0%Q
  end.

(** [LinearRegression] with the given coefficients and intercept. *)
Definition LinearRegression (coef : list Q) (intercept : Q) : Regressor :=
  {| model_predict := fun xs =>
       if bool_decide (length xs = length coef) then
         mret (dot coef xs + intercept)%Q
       else inl (shape_error "LinearRegression" (length xs) (length coef)) |}.

(** Formatting of a whole-number double, as in [str(3.0) = '3.0']. *)
Definition float_str (x : Q) : string := pretty (Qfloor x) +:+ ".0".

End Sklearn.

Module Examples.

Definition meta (fs : list string) : Metadata :=
  {| features := fs; model_name := "Linear Regression";
     test_r2 := 0; test_rmse := 0 |}.

(** A bundle over two features, one of them categorical. *)
Definition bundle : Artifacts :=
  {| model := Sklearn.LinearRegression [10; -25]%Q 60;
     scaler := Sklearn.StandardScaler [(50, 10); (0, 1)]%Q;
     label_encoders :=
       {[ "Histology" :=
            Sklearn.LabelEncoder_fit
              ["Infiltrating Ductal Carcinoma";
               "Infiltrating Lobular Carcinoma";
               "Mucinous Carcinoma"] ]};
     metadata := meta ["Age"; "Histology"] |}.

(** Patient 1 of the command-line script, as submitted to the API. *)
Definition raw_patient1 : RawPatient :=
  {| raw_Age := Some 68%Z; raw_Gender := Some "FEMALE";
     raw_Protein1 := Some (-5 # 10); raw_Protein2 := Some (8 # 10);
     raw_Protein3 := Some (2 # 10); raw_Protein4 := Some (-3 # 10);
     raw_Tumour_Stage := Some "III";
     raw_Histology := Some "Infiltrating Ductal Carcinoma";
     raw_ER_status := Some "Negative"; raw_PR_status := Some "Negative";
     raw_HER2_status := Some "Positive";
     raw_Surgery_type := Some "Mastectomy" |}.

Definition patient1 : PatientData :=
  {| Age := 68; Gender := "FEMALE";
     Protein1 := -5 # 10; Protein2 := 8 # 10;
     Protein3 := 2 # 10; Protein4 := -3 # 10;
     Tumour_Stage := "III";
     Histology := "Infiltrating Ductal Carcinoma";
     ER_status := "Negative"; PR_status := "Negative";
     HER2_status := "Positive";
     Surgery_type := "Mastectomy" |}.

(** A young patient with the third histology class. *)
Definition raw_patient2 : RawPatient :=
  {| raw_Age := Some 18%Z; raw_Gender := Some "female";
     raw_Protein1 := Some (95 # 100); raw_Protein2 := Some (215 # 100);
     raw_Protein3 := Some (8 # 1000); raw_Protein4 := Some (-5 # 100);
     raw_Tumour_Stage := Some "I";
     raw_Histology := Some "Mucinous Carcinoma";
     raw_ER_status := Some "Positive"; raw_PR_status := Some "Positive";
     raw_HER2_status := Some "Negative";
     raw_Surgery_type := Some "Other" |}.

(** Patient 1 with a mixed-case ER status. *)
Definition raw_patient3 : RawPatient :=
  {| raw_Age := Some 68%Z; raw_Gender := Some "FEMALE";
     raw_Protein1 := Some (-5 # 10); raw_Protein2 := Some (8 # 10);
     raw_Protein3 := Some (2 # 10); raw_Protein4 := Some (-3 # 10);
     raw_Tumour_Stage := Some "III";
     raw_Histology := Some "Infiltrating Ductal Carcinoma";
     raw_ER_status := Some "pOsitive"; raw_PR_status := Some "Negative";
     raw_HER2_status := Some "Positive";
     raw_Surgery_type := Some "Mastectomy" |}.

(** The same bundle with a scaler fitted on three columns. *)
Definition stale_bundle : Artifacts :=
  {| model := model bundle;
     scaler := Sklearn.StandardScaler [(50, 10); (0, 1); (0, 1)]%Q;
     label_encoders := label_encoders bundle;
     metadata := metadata bundle |}.

(** A bundle with a categorical column whose classes are number-like
    strings, ["-1"] standing for an unknown status. *)
Definition coded_bundle : Artifacts :=
  {| model := Sklearn.LinearRegression [10; -25]%Q 60;
     scaler := Sklearn.StandardScaler [(50, 10); (0, 1)]%Q;
     label_encoders :=
       {[ "Menopause" := Sklearn.LabelEncoder_fit ["-1"; "0"; "1"] ]};
     metadata := meta ["Age"; "Menopause"] |}.

(** A record of the command-line tool with an unseen histology. *)
Definition unseen_histology : gmap string value :=
  {[ "Age" := VInt 50; "Histology" := VStr "Papillary Carcinoma" ]}.

End Examples.

Module CliExamples.

(** A reader of the two numbers used below, raising on anything else. *)
Definition py_int (s : string) : raising Z :=
  if bool_decide (s = "68") then mret 68%Z
  else if bool_decide (s = "150") then mret 150%Z
  else inl (ValueError
              ("invalid literal for int() with base 10: '" +:+ s +:+ "'")).

Definition py_float (s : string) : raising Q :=
  if bool_decide (s = "-0.5") then mret (-5 # 10)%Q
  else if bool_decide (s = "0.8") then mret (8 # 10)%Q
  else inl (ValueError ("could not convert string to float: '" +:+ s +:+ "'")).

(** Enter pressed at every prompt. *)
Definition all_defaults : Answers :=
  {| ans_age := EmptyString; ans_p1 := EmptyString; ans_p2 := EmptyString;
     ans_p3 := EmptyString; ans_p4 := EmptyString; ans_stage := EmptyString;
     ans_hist := EmptyString; ans_er := EmptyString; ans_pr := EmptyString;
     ans_her2 := EmptyString; ans_surg := EmptyString |}.

(** A session with a lower-case stage and an unlisted surgery choice. *)
Definition session : Answers :=
  {| ans_age := "68"; ans_p1 := "-0.5"; ans_p2 := "0.8";
     ans_p3 := EmptyString; ans_p4 := EmptyString; ans_stage := "iii";
     ans_hist := "3"; ans_er := "Negative"; ans_pr := "negative";
     ans_her2 := "Positive"; ans_surg := "7" |}.

(** A session whose age is not a number. *)
Definition bad_session : Answers :=
  {| ans_age := "sixty"; ans_p1 := "-0.5"; ans_p2 := "0.8";
     ans_p3 := EmptyString; ans_p4 := EmptyString; ans_stage := "III";
     ans_hist := "3"; ans_er := "Negative"; ans_pr := "Negative";
     ans_her2 := "Positive"; ans_surg := "2" |}.

(** Three rows of a CSV file; the last holds text where the scaler needs
    a number. *)
Definition row_a : gmap string value :=
  {[ "Age" := VInt 68; "Histology" := VStr "Infiltrating Ductal Carcinoma" ]}.
Definition row_b : gmap string value :=
  {[ "Age" := VInt 90; "Histology" := VStr "Infiltrating Ductal Carcinoma" ]}.
Definition row_bad : gmap string value :=
  {[ "Age" := VStr "n/a"; "Histology" := VStr "Mucinous Carcinoma" ]}.

(** A bundle whose schema lists Gender, with an encoder for Histology
    only. *)
Definition gender_bundle : Artifacts :=
  {| model := Sklearn.LinearRegression [10; -25]%Q 60;
     scaler := Sklearn.StandardScaler [(50, 10); (0, 1)]%Q;
     label_encoders :=
       {[ "Histology" :=
            Sklearn.LabelEncoder_fit
              ["Infiltrating Ductal Carcinoma";
               "Infiltrating Lobular Carcinoma";
               "Mucinous Carcinoma"] ]};
     metadata := Examples.meta ["Age"; "Gender"] |}.

(** A bundle whose schema has a status column. *)
Definition status_bundle : Artifacts :=
  {| model := Sklearn.LinearRegression [10; -25]%Q 60;
     scaler := Sklearn.StandardScaler [(50, 10); (0, 1)]%Q;
     label_encoders :=
       {[ "ER status" := Sklearn.LabelEncoder_fit ["Negative"; "Positive"] ]};
     metadata := Examples.meta ["Age"; "ER status"] |}.

End CliExamples.

(** ** Notions used in the statements *)

(** What the encoding loop leaves in column [c] when it held [v]. *)
Definition encoded (float_str : Q -> string) (art : Artifacts)
    (c : string) (v : value) : value :=
  match label_encoders art !! c with
  | Some le => VInt (default 0%Z (le_transform le (astype_str float_str v)))
  | None => v
  end.

(** The errors a validation step reports, none when it succeeds. *)
Definition errs {A : Type} (x : checked A) : list ErrorDetail :=
  match x with
  | inl e => e
  | inr _ => []
  end.

(** No step fails with an empty list of errors. *)
Definition reports {A : Type} (x : checked A) : Prop := x <> inl [].

(** The errors of each field of a submission, by field. *)
Definition field_checks (raw : RawPatient) : list (string * list ErrorDetail) :=
  [ ("Age", errs (field "Age" (raw_Age raw) (int_ge_le 18 100)));
    ("Gender", errs (field "Gender" (raw_Gender raw) (validator validate_gender)));
    ("Protein1", errs (field "Protein1" (raw_Protein1 raw) (float_ge_le (-5) 5)));
    ("Protein2", errs (field "Protein2" (raw_Protein2 raw) (float_ge_le (-5) 5)));
    ("Protein3", errs (field "Protein3" (raw_Protein3 raw) (float_ge_le (-5) 5)));
    ("Protein4", errs (field "Protein4" (raw_Protein4 raw) (float_ge_le (-5) 5)));
    ("Tumour_Stage",
     errs (field "Tumour_Stage" (raw_Tumour_Stage raw) (validator validate_tumour_stage)));
    ("Histology", errs (field "Histology" (raw_Histology raw) any_str));
    ("ER status", errs (field "ER status" (raw_ER_status raw) (validator validate_status)));
    ("PR status", errs (field "PR status" (raw_PR_status raw) (validator validate_status)));
    ("HER2 status",
     errs (field "HER2 status" (raw_HER2_status raw) (validator validate_status)));
    ("Surgery_type", errs (field "Surgery_type" (raw_Surgery_type raw) any_str)) ].

(** A submission with its two free-text fields replaced. *)
Definition with_free_text (raw : RawPatient) (histology surgery : option string)
  : RawPatient :=
  {| raw_Age := raw_Age raw; raw_Gender := raw_Gender raw;
     raw_Protein1 := raw_Protein1 raw; raw_Protein2 := raw_Protein2 raw;
     raw_Protein3 := raw_Protein3 raw; raw_Protein4 := raw_Protein4 raw;
     raw_Tumour_Stage := raw_Tumour_Stage raw;
     raw_Histology := histology;
     raw_ER_status := raw_ER_status raw; raw_PR_status := raw_PR_status raw;
     raw_HER2_status := raw_HER2_status raw;
     raw_Surgery_type := surgery |}.

(** A string all of whose characters are ASCII (code below 128); on such
    strings [PyStr.upper] is Python's [upper]. *)
Fixpoint ascii_only (s : string) : bool :=
  match s with
  | EmptyString => true
  | String c r => Nat.ltb (nat_of_ascii c) 128 && ascii_only r
  end.

(** Two strings that differ by letter case only. *)
Definition same_ignoring_case (a b : string) : Prop :=
  PyStr.lower a = PyStr.lower b.

(** A validated patient, submitted again. *)
Definition resubmit (p : PatientData) : RawPatient :=
  {| raw_Age := Some (Age p); raw_Gender := Some (Gender p);
     raw_Protein1 := Some (Protein1 p); raw_Protein2 := Some (Protein2 p);
     raw_Protein3 := Some (Protein3 p); raw_Protein4 := Some (Protein4 p);
     raw_Tumour_Stage := Some (Tumour_Stage p);
     raw_Histology := Some (Histology p);
     raw_ER_status := Some (ER_status p); raw_PR_status := Some (PR_status p);
     raw_HER2_status := Some (HER2_status p);
     raw_Surgery_type := Some (Surgery_type p) |}.

(** The four tiers, from the shortest survival to the longest. *)
Definition tier_rank (risk : string) : nat :=
  if bool_decide (risk = "HIGH RISK") then 0
  else if bool_decide (risk = "ELEVATED RISK") then 1
  else if bool_decide (risk = "MODERATE RISK") then 2
  else 3.


(** The values that [interactive_mode] puts in the patient dict, as a
    submission to the API. *)
Definition interactive_submission (a : Answers) (age : Z) (p1 p2 p3 p4 : Q)
  : RawPatient :=
  {| raw_Age := Some age; raw_Gender := Some "FEMALE";
     raw_Protein1 := Some p1; raw_Protein2 := Some p2;
     raw_Protein3 := Some p3; raw_Protein4 := Some p4;
     raw_Tumour_Stage := Some (one_of (ans_stage a) ["I"; "II"; "III"] "II");
     raw_Histology :=
       Some (default "Infiltrating Ductal Carcinoma" (histology_map !! ans_hist a));
     raw_ER_status :=
       Some (one_of (ans_er a) ["Positive"; "Negative"] "Positive");
     raw_PR_status :=
       Some (one_of (ans_pr a) ["Positive"; "Negative"] "Positive");
     raw_HER2_status :=
       Some (one_of (ans_her2 a) ["Positive"; "Negative"] "Negative");
     raw_Surgery_type :=
       Some (default "Lumpectomy" (surgery_map !! ans_surg a)) |}.

(** The patient dict of a session in which the five numbers were read. *)
Definition interactive_dict (a : Answers) (age : Z) (p1 p2 p3 p4 : Q)
  : gmap string value :=
  list_to_map
    [ ("Age", VInt age); ("Gender", VStr "FEMALE");
      ("Protein1", VFloat p1); ("Protein2", VFloat p2);
      ("Protein3", VFloat p3); ("Protein4", VFloat p4);
      ("Tumour_Stage", VStr (one_of (ans_stage a) ["I"; "II"; "III"] "II"));
      ("Histology",
       VStr (default "Infiltrating Ductal Carcinoma"
               (histology_map !! ans_hist a)));
      ("Surgery_type",
       VStr (default "Lumpectomy" (surgery_map !! ans_surg a)));
      ("ER status",
       VStr (one_of (ans_er a) ["Positive"; "Negative"] "Positive"));
      ("PR status",
       VStr (one_of (ans_pr a) ["Positive"; "Negative"] "Positive"));
      ("HER2 status",
       VStr (one_of (ans_her2 a) ["Positive"; "Negative"] "Negative")) ].

(** The row of the output file for the patient at position [i]. *)
Definition batch_row (i : nat) (result : PredictionResult) : BatchRow :=
  {| Patient_ID := Z.of_nat i + 1;
     Predicted_Days := predicted_days result;
     Predicted_Months := predicted_months result;
     Risk_Category := risk_category result;
     Recommendation := recommendation result |}.

(** * Properties *)

(** ** Comparisons and rounding *)

Section Numbers.

Local Open Scope Q_scope.

Lemma Qltb_lt (a b : Q) : PyNum.Qltb a b = true <-> a < b.
Proof.
  unfold PyNum.Qltb. rewrite negb_true_iff.
  destruct (Qle_bool b a) eqn:E.
  - apply Qle_bool_iff in E. split; [discriminate | intros H; lra].
  - split; [intros _ | reflexivity].
    apply Qnot_le_lt. intros H. apply Qle_bool_iff in H. congruence.
Qed.

Lemma Qltb_ge (a b : Q) : PyNum.Qltb a b = false <-> b <= a.
Proof.
  unfold PyNum.Qltb. rewrite negb_false_iff. apply Qle_bool_iff.
Qed.

Lemma rint_floor_or_succ (x : Q) :
  PyNum.rint x = Qfloor x \/ PyNum.rint x = (Qfloor x + 1)%Z.
Proof.
  unfold PyNum.rint.
  repeat match goal with |- context [if ?b then _ else _] => destruct b end;
    auto.
Qed.

Lemma rint_nonneg (x : Q) : 0 <= x -> (0 <= PyNum.rint x)%Z.
Proof.
  intros Hx.
  assert (0 <= Qfloor x)%Z.
  { change 0%Z with (Qfloor 0). now apply Qfloor_resp_le. }
  destruct (rint_floor_or_succ x) as [-> | ->]; lia.
Qed.

Lemma round_0_whole (x : Q) :
  PyNum.round x 0 == inject_Z (PyNum.rint (x * 1)).
Proof.
  unfold PyNum.round, PyNum.pow10.
  change (inject_Z (10 ^ Z.of_nat 0)) with 1. field.
Qed.

Lemma round_0_nonneg (x : Q) : 0 <= x -> 0 <= PyNum.round x 0.
Proof.
  intros Hx. rewrite round_0_whole.
  change 0 with (inject_Z 0). rewrite <- Zle_Qle.
  apply rint_nonneg. lra.
Qed.

End Numbers.

(** ** The frame before scaling *)

Section Alignment.

Variable float_str : Q -> string.
Variable art : Artifacts.

Abbreviation schema := (features (metadata art)).

Lemma fill_feature_lookup (df : gmap string value) (f c : string) :
  fill_feature df f !! c =
    match df !! c with
    | Some v => Some v
    | None => if decide (c = f) then Some (VInt 0) else None
    end.
Proof.
  unfold fill_feature. destruct (decide (c = f)) as [-> | Hne].
  - destruct (df !! f) eqn:E; rewrite ?E, ?lookup_insert_eq; reflexivity.
  - destruct (df !! f); rewrite ?lookup_insert_ne by congruence;
      now destruct (df !! c).
Qed.

Lemma foldl_fill_lookup (fs : list string) (df : gmap string value) (c : string) :
  foldl fill_feature df fs !! c =
    match df !! c with
    | Some v => Some v
    | None => if decide (c ∈ fs) then Some (VInt 0) else None
    end.
Proof.
  revert df. induction fs as [| f fs IH]; intros df; simpl.
  - destruct (df !! c); [reflexivity |].
    destruct (decide (c ∈ [])) as [H | _]; [inversion H | reflexivity].
  - rewrite IH, fill_feature_lookup.
    destruct (df !! c); [reflexivity |].
    destruct (decide (c = f)) as [-> | Hne].
    + rewrite decide_True by left. reflexivity.
    + destruct (decide (c ∈ fs)) as [Hin | Hnin].
      * rewrite decide_True by now right. reflexivity.
      * rewrite decide_False; [reflexivity |].
        intros H. apply elem_of_cons in H. tauto.
Qed.

Lemma fill_missing_lookup (df : gmap string value) (c : string) :
  fill_missing art df !! c =
    match df !! c with
    | Some v => Some v
    | None => if decide (c ∈ schema) then Some (VInt 0) else None
    end.
Proof. apply foldl_fill_lookup. Qed.

Lemma encode_column_lookup (df : gmap string value) (col : string)
    (le : LabelEncoder) (c : string) :
  encode_column float_str df (col, le) !! c =
    match df !! c with
    | Some v =>
        if decide (c = col)
        then Some (VInt (default 0%Z (le_transform le (astype_str float_str v))))
        else Some v
    | None => None
    end.
Proof.
  unfold encode_column. destruct (decide (c = col)) as [-> | Hne].
  - destruct (df !! col) as [v |] eqn:E; [| now rewrite E].
    destruct (le_transform le _); now rewrite lookup_insert_eq.
  - destruct (df !! col) as [v |] eqn:E.
    + destruct (le_transform le _);
        rewrite lookup_insert_ne by congruence; now destruct (df !! c).
    + now destruct (df !! c).
Qed.

Lemma foldl_encode_lookup (items : list (string * LabelEncoder))
    (df : gmap string value) (c : string) :
  NoDup items.*1 ->
  foldl (encode_column float_str) df items !! c =
    match df !! c with
    | Some v =>
        match (list_to_map items : gmap string LabelEncoder) !! c with
        | Some le =>
            Some (VInt (default 0%Z (le_transform le (astype_str float_str v))))
        | None => Some v
        end
    | None => None
    end.
Proof.
  revert df. induction items as [| [col le] items IH]; intros df Hnd.
  - simpl. rewrite lookup_empty. now destruct (df !! c).
  - apply NoDup_cons in Hnd as [Hcol Hnd].
    change (foldl (encode_column float_str) df ((col, le) :: items))
      with (foldl (encode_column float_str)
              (encode_column float_str df (col, le)) items).
    rewrite IH by assumption. rewrite encode_column_lookup.
    change (list_to_map ((col, le) :: items))
      with (<[col := le]> (list_to_map items : gmap string LabelEncoder)).
    destruct (df !! c) as [v |]; [| reflexivity].
    destruct (decide (c = col)) as [-> | Hne].
    + rewrite lookup_insert_eq.
      now rewrite (not_elem_of_list_to_map_1 items col Hcol).
    + now rewrite lookup_insert_ne by congruence.
Qed.

Lemma encode_lookup (df : gmap string value) (c : string) :
  encode float_str art df !! c = encoded float_str art c <$> df !! c.
Proof.
  unfold encode, encoded.
  rewrite foldl_encode_lookup by apply NoDup_fst_map_to_list.
  rewrite list_to_map_to_list.
  destruct (df !! c); simpl; [| reflexivity].
  now destruct (label_encoders art !! c).
Qed.

(** The dict is walked in insertion order by the program and in the
    order of [map_to_list] here: the frame that results is the same for
    every order of the items. *)
Lemma encode_any_order (items : list (string * LabelEncoder))
    (df : gmap string value) :
  items ≡ₚ map_to_list (label_encoders art) ->
  foldl (encode_column float_str) df items = encode float_str art df.
Proof.
  intros Hperm.
  assert (Hnd : NoDup items.*1).
  { rewrite Hperm. apply NoDup_fst_map_to_list. }
  apply map_eq. intros c.
  rewrite encode_lookup, (foldl_encode_lookup items df c Hnd).
  rewrite (list_to_map_proper items _ Hnd Hperm), list_to_map_to_list.
  unfold encoded. destruct (df !! c); simpl; [| reflexivity].
  now destruct (label_encoders art !! c).
Qed.

(** The cell of column [c] after filling and encoding. *)
Lemma prepared_lookup (patient_data : gmap string value) (c : string) :
  c ∈ schema ->
  encode float_str art (fill_missing art patient_data) !! c =
    Some (encoded float_str art c (default (VInt 0) (patient_data !! c))).
Proof.
  intros Hc. rewrite encode_lookup, fill_missing_lookup.
  destruct (patient_data !! c); simpl; [reflexivity |].
  now rewrite decide_True.
Qed.

Lemma select_Forall2 (cols : list string) (df : gmap string value) :
  (forall c, c ∈ cols -> is_Some (df !! c)) ->
  exists row,
    select cols df = inr row /\
    Forall2 (fun c cell => cell.1 = c /\ df !! c = Some cell.2) cols row.
Proof.
  induction cols as [| c cols IH]; intros Hall; simpl.
  - exists []. split; [reflexivity | constructor].
  - destruct (Hall c) as [v Hv]; [left |]. rewrite Hv.
    destruct IH as (row & -> & Hrow).
    { intros c' Hc'. apply Hall. now right. }
    exists ((c, v) :: row). split; [reflexivity |].
    constructor; [split; [reflexivity | exact Hv] | exact Hrow].
Qed.

Lemma select_KeyError (cols : list string) (df : gmap string value) (e : exn) :
  select cols df = inl e -> exists c, c ∈ cols /\ df !! c = None.
Proof.
  induction cols as [| c cols IH]; simpl; [discriminate |].
  destruct (df !! c) eqn:E.
  - destruct (select cols df) eqn:Es; simpl; [| discriminate].
    intros H. destruct (IH H) as (c' & Hin & Hnone).
    exists c'. split; [now right | exact Hnone].
  - intros _. exists c. split; [left | exact E].
Qed.

(** The reordering never fails: every schema column is in the frame. *)
Lemma align_Forall2 (patient_data : gmap string value) :
  exists row,
    align float_str art patient_data = inr row /\
    Forall2 (fun c cell =>
               cell = (c, encoded float_str art c (default (VInt 0) (patient_data !! c))))
            schema row.
Proof.
  unfold align.
  destruct (select_Forall2 schema
              (encode float_str art (fill_missing art patient_data)))
    as (row & Hsel & Hrow).
  { intros c Hc. rewrite prepared_lookup by assumption. eauto. }
  exists row. split; [exact Hsel |].
  apply Forall2_same_length_lookup. split; [eapply Forall2_length; eauto |].
  intros i c cell Hc Hcell.
  destruct (Forall2_lookup_lr _ _ _ _ _ _ Hrow Hc Hcell) as [H1 H2].
  rewrite prepared_lookup in H2 by (eapply list_elem_of_lookup_2; eauto).
  destruct cell as [c' v]. simpl in *. congruence.
Qed.

Lemma align_lookup (patient_data : gmap string value)
    (row : list (string * value)) (i : nat) (c : string) :
  align float_str art patient_data = inr row ->
  schema !! i = Some c ->
  row !! i = Some (c, encoded float_str art c (default (VInt 0) (patient_data !! c))).
Proof.
  intros Hrow Hc.
  destruct (align_Forall2 patient_data) as (row' & Hrow' & Hall).
  assert (row' = row) as -> by congruence.
  destruct (Forall2_lookup_l _ _ _ _ _ Hall Hc) as (cell & Hcell & ->).
  exact Hcell.
Qed.

Lemma align_columns (patient_data : gmap string value)
    (row : list (string * value)) :
  align float_str art patient_data = inr row -> row.*1 = schema.
Proof.
  intros Hrow.
  destruct (align_Forall2 patient_data) as (row' & Hrow' & Hall).
  assert (row' = row) as -> by congruence. clear Hrow Hrow'.
  induction Hall as [| c cell cs row' -> _ IH]; [reflexivity |].
  rewrite fmap_cons. simpl. now f_equal.
Qed.

(** [predict_survival] is the aligned row pushed through the scaler and
    the model, and the report of the estimate. *)
Lemma predict_survival_inr (patient_data : gmap string value)
    (result : PredictionResult) :
  predict_survival float_str art patient_data = inr result <->
  exists row xs d,
    align float_str art patient_data = inr row /\
    scaler_transform (scaler art) row = inr xs /\
    model_predict (model art) xs = inr d /\
    result = report d.
Proof.
  unfold predict_survival. split.
  - destruct (align float_str art patient_data) as [e | row]; simpl;
      [discriminate |].
    destruct (scaler_transform (scaler art) row) as [e | xs] eqn:Hs; simpl;
      [discriminate |].
    destruct (model_predict (model art) xs) as [e | d] eqn:Hm; simpl;
      [discriminate |].
    intros [= <-]. now exists row, xs, d.
  - intros (row & xs & d & -> & H2 & H3 & ->). simpl.
    rewrite H2. simpl. rewrite H3. reflexivity.
Qed.

(** A failure of [predict_survival] is a failure of the scaler or of
    the model, with that exception. *)
Lemma predict_survival_inl (patient_data : gmap string value) (e : exn) :
  predict_survival float_str art patient_data = inl e <->
  exists row,
    align float_str art patient_data = inr row /\
    (scaler_transform (scaler art) row = inl e \/
     exists xs, scaler_transform (scaler art) row = inr xs /\
                model_predict (model art) xs = inl e).
Proof.
  unfold predict_survival.
  destruct (align_Forall2 patient_data) as (row & Hrow & _).
  rewrite Hrow. simpl. split.
  - intros H. exists row. split; [reflexivity |].
    destruct (scaler_transform (scaler art) row) as [e' | xs]; simpl in H.
    + left. congruence.
    + right. exists xs. split; [reflexivity |].
      destruct (model_predict (model art) xs); simpl in H; [congruence | discriminate].
  - intros (row' & [= <-] & [H | (xs & H1 & H2)]).
    + now rewrite H.
    + rewrite H1. simpl. now rewrite H2.
Qed.

End Alignment.

(** ** Validation of a submission *)

Section Validation.

Lemma ap_inr {A B : Type} (f : checked (A -> B)) (x : checked A) (b : B) :
  ap f x = inr b <-> exists g a, f = inr g /\ x = inr a /\ b = g a.
Proof.
  split.
  - destruct f as [ef | g], x as [ex | a]; simpl; try discriminate.
    intros [= <-]. now exists g, a.
  - intros (g & a & -> & -> & ->). reflexivity.
Qed.

Lemma ap_errs {A B : Type} (f : checked (A -> B)) (x : checked A) :
  errs (ap f x) = (errs f ++ errs x)%list.
Proof.
  destruct f, x; simpl; rewrite ?app_nil_r; reflexivity.
Qed.

Lemma ap_reports {A B : Type} (f : checked (A -> B)) (x : checked A) :
  reports f -> reports x -> reports (ap f x).
Proof.
  unfold reports. destruct f as [ef | g], x as [ex | a]; simpl; try congruence.
  intros Hf Hx [= H]. apply app_eq_nil in H as [-> _]. congruence.
Qed.

Lemma field_reports {A B : Type} (name : string) (input : option A)
    (check : A -> error_type + B) :
  reports (field name input check).
Proof.
  unfold reports, field. destruct input as [a |]; [| discriminate].
  destruct (check a); discriminate.
Qed.

Lemma field_errs {A B : Type} (name : string) (input : option A)
    (check : A -> error_type + B) (d : ErrorDetail) :
  d ∈ errs (field name input check) ->
  errs (field name input check) = [d] /\ loc d = name.
Proof.
  unfold field. destruct input as [a |]; simpl.
  - destruct (check a); simpl; intros H.
    + apply list_elem_of_singleton in H as ->. split; reflexivity.
    + inversion H.
  - intros H. apply list_elem_of_singleton in H as ->. split; reflexivity.
Qed.

Lemma validate_reports (raw : RawPatient) : reports (validate raw).
Proof.
  unfold validate.
  repeat (apply ap_reports; [| apply field_reports]).
  discriminate.
Qed.

Lemma validate_errs (raw : RawPatient) :
  errs (validate raw) = concat (field_checks raw).*2.
Proof.
  unfold validate. rewrite !ap_errs. simpl. rewrite app_nil_r.
  rewrite <- !app_assoc. reflexivity.
Qed.

Lemma validate_inl (raw : RawPatient) (errors : list ErrorDetail) :
  validate raw = inl errors ->
  errors <> [] /\ errors = concat (field_checks raw).*2.
Proof.
  intros H. split.
  - intros ->. now apply (validate_reports raw).
  - rewrite <- validate_errs, H. reflexivity.
Qed.

Lemma validate_inr (raw : RawPatient) (p : PatientData) :
  validate raw = inr p <->
  field "Age" (raw_Age raw) (int_ge_le 18 100) = inr (Age p) /\
  field "Gender" (raw_Gender raw) (validator validate_gender) = inr (Gender p) /\
  field "Protein1" (raw_Protein1 raw) (float_ge_le (-5) 5) = inr (Protein1 p) /\
  field "Protein2" (raw_Protein2 raw) (float_ge_le (-5) 5) = inr (Protein2 p) /\
  field "Protein3" (raw_Protein3 raw) (float_ge_le (-5) 5) = inr (Protein3 p) /\
  field "Protein4" (raw_Protein4 raw) (float_ge_le (-5) 5) = inr (Protein4 p) /\
  field "Tumour_Stage" (raw_Tumour_Stage raw) (validator validate_tumour_stage)
    = inr (Tumour_Stage p) /\
  field "Histology" (raw_Histology raw) any_str = inr (Histology p) /\
  field "ER status" (raw_ER_status raw) (validator validate_status)
    = inr (ER_status p) /\
  field "PR status" (raw_PR_status raw) (validator validate_status)
    = inr (PR_status p) /\
  field "HER2 status" (raw_HER2_status raw) (validator validate_status)
    = inr (HER2_status p) /\
  field "Surgery_type" (raw_Surgery_type raw) any_str = inr (Surgery_type p).
Proof.
  unfold validate. split.
  - intros H.
    repeat match type of H with
           | ap _ _ = inr _ =>
               apply ap_inr in H as (? & ? & H & -> & ->)
           end.
    injection H as <-. simpl. repeat split; reflexivity.
  - intros (-> & -> & -> & -> & -> & -> & -> & -> & -> & -> & -> & ->).
    simpl. now destruct p.
Qed.

(** A field whose own check fails makes the whole submission fail, and
    its error is among those reported. *)
Lemma validate_field_error (raw : RawPatient) (name : string)
    (d : ErrorDetail) :
  (name, [d]) ∈ field_checks raw ->
  exists errors, validate raw = inl errors /\ d ∈ errors.
Proof.
  intros Hin.
  assert (Hd : d ∈ errs (validate raw)).
  { rewrite validate_errs. apply list_elem_of_In, in_concat. exists [d].
    split; [| now left].
    apply list_elem_of_In, list_elem_of_fmap. now exists (name, [d]). }
  destruct (validate raw) as [errors | p]; simpl in Hd.
  - now exists errors.
  - inversion Hd.
Qed.

Lemma all_status_allowed_cases (v : string) :
  v ∈ status_allowed ->
  PyStr.capitalize v = "Positive" \/ PyStr.capitalize v = "Negative".
Proof.
  unfold status_allowed. rewrite !elem_of_cons.
  intros [-> | [-> | [-> | [-> | [-> | [-> | H]]]]]];
    [left | right | left | right | left | right | inversion H]; reflexivity.
Qed.

Lemma validate_status_spec (v : string) :
  validate_status v =
    if decide (v ∈ status_allowed)
    then inr (PyStr.capitalize v)
    else inl (ValueError
      "Status must be one of: ['Positive', 'Negative', 'positive', 'negative', 'POSITIVE', 'NEGATIVE']").
Proof.
  unfold validate_status, PyStr.mem.
  destruct (decide (v ∈ status_allowed)) as [H | H].
  - now rewrite bool_decide_eq_true_2.
  - now rewrite bool_decide_eq_false_2.
Qed.

Lemma to_model_dict_spec (p : PatientData) :
  to_model_dict p = inr (list_to_map
    [ ("Age", VInt (Age p)); ("Gender", VStr (Gender p));
      ("Protein1", VFloat (Protein1 p)); ("Protein2", VFloat (Protein2 p));
      ("Protein3", VFloat (Protein3 p)); ("Protein4", VFloat (Protein4 p));
      ("Tumour_Stage", VStr (Tumour_Stage p)); ("Histology", VStr (Histology p));
      ("Surgery_type", VStr (Surgery_type p));
      ("ER status", VStr (ER_status p)); ("PR status", VStr (PR_status p));
      ("HER2 status", VStr (HER2_status p)) ]).
Proof. destruct p. vm_compute. reflexivity. Qed.

End Validation.

(** ** The risk tiers *)

Section Tiers.

Local Open Scope Q_scope.

Lemma report_fields (d : Q) :
  (risk_category (report d), risk_color (report d), recommendation (report d))
    = risk_stratification d.
Proof.
  unfold report. now destruct (risk_stratification d) as [[risk color] action].
Qed.

Lemma report_days (d : Q) : predicted_days (report d) = PyNum.round d 0.
Proof.
  unfold report. now destruct (risk_stratification d) as [[risk color] action].
Qed.

Lemma tier_cases (d : Q) :
  (d < 180 /\
   risk_stratification d =
     ("HIGH RISK", "🔴",
      "Immediate intensive care and close monitoring required")) \/
  (180 <= d < 365 /\
   risk_stratification d =
     ("ELEVATED RISK", "🟠",
      "Enhanced monitoring and aggressive treatment recommended")) \/
  (365 <= d < 730 /\
   risk_stratification d =
     ("MODERATE RISK", "🟡",
      "Standard treatment protocol with regular follow-ups")) \/
  (730 <= d /\
   risk_stratification d =
     ("LOWER RISK", "🟢", "Standard care with routine monitoring")).
Proof.
  unfold risk_stratification.
  destruct (PyNum.Qltb d 180) eqn:E1;
    [apply Qltb_lt in E1; now left | apply Qltb_ge in E1; right].
  destruct (PyNum.Qltb d 365) eqn:E2;
    [apply Qltb_lt in E2; now left | apply Qltb_ge in E2; right].
  destruct (PyNum.Qltb d 730) eqn:E3;
    [apply Qltb_lt in E3; now left | apply Qltb_ge in E3; now right].
Qed.

(** The fields of the report in each of the four cases. *)
Lemma report_cases (d : Q) :
  (d < 180 /\ risk_category (report d) = "HIGH RISK" /\
   risk_color (report d) = "🔴" /\
   recommendation (report d) =
     "Immediate intensive care and close monitoring required") \/
  (180 <= d < 365 /\ risk_category (report d) = "ELEVATED RISK" /\
   risk_color (report d) = "🟠" /\
   recommendation (report d) =
     "Enhanced monitoring and aggressive treatment recommended") \/
  (365 <= d < 730 /\ risk_category (report d) = "MODERATE RISK" /\
   risk_color (report d) = "🟡" /\
   recommendation (report d) =
     "Standard treatment protocol with regular follow-ups") \/
  (730 <= d /\ risk_category (report d) = "LOWER RISK" /\
   risk_color (report d) = "🟢" /\
   recommendation (report d) = "Standard care with routine monitoring").
Proof.
  pose proof (report_fields d) as Hf.
  destruct (tier_cases d) as [[H E] | [[H E] | [[H E] | [H E]]]];
    rewrite E in Hf; injection Hf as -> -> ->;
    [left | right; left | right; right; left | right; right; right];
    repeat split; tauto.
Qed.

(** C1. The tier is found by testing the estimate against 180, 365 and
    730 in that order, the first bound it is below deciding: below 180
    HIGH RISK, from 180 and below 365 ELEVATED RISK, from 365 and below
    730 MODERATE RISK, from 730 on LOWER RISK, each with its own
    recommendation; 180, 365 and 730 themselves fall in the upper tier,
    and two estimates have the same tier exactly when they have the same
    recommendation. *)
Theorem risk_tier_thresholds :
  (forall d : Q,
     (d < 180 ->
      risk_category (report d) = "HIGH RISK" /\
      recommendation (report d) =
        "Immediate intensive care and close monitoring required") /\
     (180 <= d < 365 ->
      risk_category (report d) = "ELEVATED RISK" /\
      recommendation (report d) =
        "Enhanced monitoring and aggressive treatment recommended") /\
     (365 <= d < 730 ->
      risk_category (report d) = "MODERATE RISK" /\
      recommendation (report d) =
        "Standard treatment protocol with regular follow-ups") /\
     (730 <= d ->
      risk_category (report d) = "LOWER RISK" /\
      recommendation (report d) = "Standard care with routine monitoring")) /\
  risk_category (report 180) = "ELEVATED RISK" /\
  risk_category (report 365) = "MODERATE RISK" /\
  risk_category (report 730) = "LOWER RISK" /\
  (forall d1 d2 : Q,
     risk_category (report d1) = risk_category (report d2) <->
     recommendation (report d1) = recommendation (report d2)).
Proof.
  split; [| split; [reflexivity | split; [reflexivity | split; [reflexivity |]]]].
  - intros d.
    destruct (report_cases d)
      as [(H & -> & _ & ->) | [(H & -> & _ & ->) | [(H & -> & _ & ->) | (H & -> & _ & ->)]]];
      repeat split; intros; try reflexivity; lra.
  - intros d1 d2.
    destruct (report_cases d1)
      as [(_ & -> & _ & ->) | [(_ & -> & _ & ->) | [(_ & -> & _ & ->) | (_ & -> & _ & ->)]]];
    destruct (report_cases d2)
      as [(_ & -> & _ & ->) | [(_ & -> & _ & ->) | [(_ & -> & _ & ->) | (_ & -> & _ & ->)]]];
      split; intros H; (reflexivity || discriminate H).
Qed.

Lemma risk_tier_thresholds_witness :
  (100 < 180 /\ risk_category (report 100) = "HIGH RISK") /\
  (180 <= 200 < 365 /\ risk_category (report 200) = "ELEVATED RISK") /\
  (365 <= 400 < 730 /\ risk_category (report 400) = "MODERATE RISK") /\
  (730 <= 800 /\ risk_category (report 800) = "LOWER RISK").
Proof.
  pose proof (proj1 risk_tier_thresholds) as T.
  assert (H1 : 100 < 180) by (compute; reflexivity).
  assert (H2 : 180 <= 200 < 365) by (split; compute; congruence).
  assert (H3 : 365 <= 400 < 730) by (split; compute; congruence).
  assert (H4 : 730 <= 800) by (compute; congruence).
  split; [split; [exact H1 | exact (proj1 (proj1 (T 100) H1))] |].
  split; [split; [exact H2 | exact (proj1 (proj1 (proj2 (T 200)) H2))] |].
  split; [split; [exact H3 | exact (proj1 (proj1 (proj2 (proj2 (T 400))) H3))] |].
  split; [exact H4 | exact (proj1 (proj2 (proj2 (proj2 (T 800))) H4))].
Defined.

End Tiers.

(** ** The report of an estimate *)

Section Report.

Local Open Scope Q_scope.

(** C4. The three tier fields of the result are those of the stratification
    of the estimate as the model returned it, while [predicted_days] is
    that estimate rounded; for 179.6 days the report shows 180 days and
    HIGH RISK, although 180 days itself is ELEVATED RISK. *)
Theorem tier_from_unrounded_estimate :
  (forall (float_str : Q -> string) (art : Artifacts)
          (patient_data : gmap string value) (result : PredictionResult),
     predict_survival float_str art patient_data = inr result ->
     exists row xs d,
       align float_str art patient_data = inr row /\
       scaler_transform (scaler art) row = inr xs /\
       model_predict (model art) xs = inr d /\
       (risk_category result, risk_color result, recommendation result)
         = risk_stratification d /\
       predicted_days result = PyNum.round d 0) /\
  predicted_days (report (1796 # 10)) = 180 /\
  risk_category (report (1796 # 10)) = "HIGH RISK" /\
  risk_category (report (predicted_days (report (1796 # 10))))
    = "ELEVATED RISK".
Proof.
  split; [| repeat split; vm_compute; reflexivity].
  intros float_str art patient_data result H.
  apply predict_survival_inr in H as (row & xs & d & Ha & Hs & Hm & ->).
  exists row, xs, d. repeat split; try assumption.
  - apply report_fields.
  - apply report_days.
Qed.

Lemma tier_from_unrounded_estimate_witness :
  predict_survival Sklearn.float_str Examples.bundle Examples.unseen_histology
    = inr (report 60) /\
  exists row xs d,
    align Sklearn.float_str Examples.bundle Examples.unseen_histology = inr row /\
    scaler_transform (scaler Examples.bundle) row = inr xs /\
    model_predict (model Examples.bundle) xs = inr d /\
    (risk_category (report 60), risk_color (report 60), recommendation (report 60))
      = risk_stratification d /\
    predicted_days (report 60) = PyNum.round d 0.
Proof.
  assert (H : predict_survival Sklearn.float_str Examples.bundle
                Examples.unseen_histology = inr (report 60))
    by (vm_compute; reflexivity).
  split; [exact H |].
  exact (proj1 tier_from_unrounded_estimate _ _ _ _ H).
Defined.

(** C8, as the code has it. The indicator is the coloured circle of the
    tier: the red circle for HIGH RISK, the orange one for ELEVATED RISK,
    the yellow one for MODERATE RISK, the green one for LOWER RISK, and two
    reports have the same indicator exactly when they have the same
    tier. *)
Theorem risk_color_of_tier :
  (forall d : Q,
     (risk_category (report d) = "HIGH RISK" /\ risk_color (report d) = "🔴") \/
     (risk_category (report d) = "ELEVATED RISK" /\ risk_color (report d) = "🟠") \/
     (risk_category (report d) = "MODERATE RISK" /\ risk_color (report d) = "🟡") \/
     (risk_category (report d) = "LOWER RISK" /\ risk_color (report d) = "🟢")) /\
  (forall d1 d2 : Q,
     risk_color (report d1) = risk_color (report d2) <->
     risk_category (report d1) = risk_category (report d2)).
Proof.
  split.
  - intros d.
    destruct (report_cases d)
      as [(_ & -> & -> & _) | [(_ & -> & -> & _) | [(_ & -> & -> & _) | (_ & -> & -> & _)]]];
      tauto.
  - intros d1 d2.
    destruct (report_cases d1)
      as [(_ & -> & -> & _) | [(_ & -> & -> & _) | [(_ & -> & -> & _) | (_ & -> & -> & _)]]];
    destruct (report_cases d2)
      as [(_ & -> & -> & _) | [(_ & -> & -> & _) | [(_ & -> & -> & _) | (_ & -> & -> & _)]]];
      split; intros H; (reflexivity || discriminate H).
Qed.

(** C8 as stated fails: the indicator of a HIGH RISK report is the red
    circle emoji, not the word. *)
Lemma risk_color_is_not_the_word :
  risk_category (report 100) = "HIGH RISK" /\
  risk_color (report 100) = "🔴" /\
  risk_color (report 100) <> "red".
Proof. repeat split. discriminate. Qed.

(** C2, as the code has it. When the scaler and the model return, the
    result is the report of the model's estimate, unclamped;
    [predicted_days] is a whole number of days, and it is non-negative
    whenever the estimate is. *)
Theorem predicted_days_whole_and_sign
    (float_str : Q -> string) (art : Artifacts)
    (patient_data : gmap string value) (result : PredictionResult) :
  predict_survival float_str art patient_data = inr result ->
  exists row xs d,
    align float_str art patient_data = inr row /\
    scaler_transform (scaler art) row = inr xs /\
    model_predict (model art) xs = inr d /\
    result = report d /\
    (exists n : Z, predicted_days result == inject_Z n) /\
    (0 <= d -> 0 <= predicted_days result).
Proof.
  intros H.
  apply predict_survival_inr in H as (row & xs & d & Ha & Hs & Hm & ->).
  exists row, xs, d. repeat split; try assumption.
  - exists (PyNum.rint (d * 1)). rewrite report_days. apply round_0_whole.
  - intros Hd. rewrite report_days. now apply round_0_nonneg.
Qed.

Lemma predicted_days_whole_and_sign_witness :
  predict_survival Sklearn.float_str Examples.bundle Examples.unseen_histology
    = inr (report 60) /\
  exists row xs d,
    align Sklearn.float_str Examples.bundle Examples.unseen_histology = inr row /\
    scaler_transform (scaler Examples.bundle) row = inr xs /\
    model_predict (model Examples.bundle) xs = inr d /\
    report 60 = report d /\
    (exists n : Z, predicted_days (report 60) == inject_Z n) /\
    (0 <= d -> 0 <= predicted_days (report 60)).
Proof.
  assert (H : predict_survival Sklearn.float_str Examples.bundle
                Examples.unseen_histology = inr (report 60))
    by (vm_compute; reflexivity).
  split; [exact H |].
  exact (predicted_days_whole_and_sign _ _ _ _ H).
Defined.

(** C2 as stated fails: a valid submission on which a linear model
    estimates -22 days, reported as such. *)
Lemma negative_estimate_reported :
  validate Examples.raw_patient2 =
    inr {| Age := 18; Gender := "FEMALE";
           Protein1 := 95 # 100; Protein2 := 215 # 100;
           Protein3 := 8 # 1000; Protein4 := -5 # 100;
           Tumour_Stage := "I"; Histology := "Mucinous Carcinoma";
           ER_status := "Positive"; PR_status := "Positive";
           HER2_status := "Negative"; Surgery_type := "Other" |} /\
  exists result,
    post_predict Sklearn.float_str Examples.bundle Examples.raw_patient2
      = Ok200 result /\
    predicted_days result = -22 /\
    predicted_days result < 0.
Proof.
  split; [vm_compute; reflexivity |].
  eexists. split; [vm_compute; reflexivity |].
  split; [reflexivity | reflexivity].
Qed.

End Report.

(** ** The request model *)

Section Request.

Lemma status_field_failure (name : string) (v : string) :
  v ∉ status_allowed ->
  errs (field name (Some v) (validator validate_status)) =
    [ {| loc := name;
         err := value_error
           "Status must be one of: ['Positive', 'Negative', 'positive', 'negative', 'POSITIVE', 'NEGATIVE']" |} ].
Proof.
  intros H. unfold field, validator. rewrite validate_status_spec.
  now rewrite decide_False.
Qed.

(** C3, as the code has it. The status validator accepts exactly the six
    listed spellings and turns them into "Positive" or "Negative"; any
    other string, a mixed-case spelling included, raises the error that
    lists the six, and a submission carrying it in its ER, PR or HER2
    field is rejected with that error at that field. *)
Theorem status_accepts_listed_spellings :
  (forall v : string,
     v ∈ status_allowed ->
     validate_status v = inr (PyStr.capitalize v) /\
     (PyStr.capitalize v = "Positive" \/ PyStr.capitalize v = "Negative")) /\
  (forall v : string,
     v ∉ status_allowed ->
     validate_status v = inl (ValueError
       "Status must be one of: ['Positive', 'Negative', 'positive', 'negative', 'POSITIVE', 'NEGATIVE']")) /\
  (forall (raw : RawPatient) (name v : string),
     (name = "ER status" /\ raw_ER_status raw = Some v) \/
     (name = "PR status" /\ raw_PR_status raw = Some v) \/
     (name = "HER2 status" /\ raw_HER2_status raw = Some v) ->
     v ∉ status_allowed ->
     exists errors,
       validate raw = inl errors /\
       {| loc := name;
          err := value_error
            "Status must be one of: ['Positive', 'Negative', 'positive', 'negative', 'POSITIVE', 'NEGATIVE']" |}
         ∈ errors).
Proof.
  split; [| split].
  - intros v Hv. split; [| now apply all_status_allowed_cases].
    rewrite validate_status_spec. now rewrite decide_True.
  - intros v Hv. rewrite validate_status_spec. now rewrite decide_False.
  - intros raw name v Hfield Hv.
    apply (validate_field_error raw name).
    unfold field_checks.
    destruct Hfield as [[-> E] | [[-> E] | [-> E]]];
      rewrite E, !(status_field_failure _ v Hv);
      rewrite !elem_of_cons; tauto.
Qed.

Lemma status_accepts_listed_spellings_witness :
  (("POSITIVE" ∈ status_allowed) /\
   validate_status "POSITIVE" = inr "Positive") /\
  (("pOsitive" ∉ status_allowed) /\
   validate_status "pOsitive" = inl (ValueError
     "Status must be one of: ['Positive', 'Negative', 'positive', 'negative', 'POSITIVE', 'NEGATIVE']")) /\
  (raw_ER_status Examples.raw_patient3 = Some "pOsitive" /\
   exists errors,
     validate Examples.raw_patient3 = inl errors /\
     {| loc := "ER status";
        err := value_error
          "Status must be one of: ['Positive', 'Negative', 'positive', 'negative', 'POSITIVE', 'NEGATIVE']" |}
       ∈ errors).
Proof.
  assert (H1 : "POSITIVE" ∈ status_allowed)
    by (apply (bool_decide_unpack _); vm_compute; exact I).
  assert (H2 : "pOsitive" ∉ status_allowed)
    by (apply (bool_decide_unpack _); vm_compute; exact I).
  assert (H3 : raw_ER_status Examples.raw_patient3 = Some "pOsitive")
    by reflexivity.
  split; [split; [exact H1 |] | split; [split; [exact H2 |] | split; [exact H3 |]]].
  - exact (proj1 (proj1 status_accepts_listed_spellings "POSITIVE" H1)).
  - exact (proj1 (proj2 status_accepts_listed_spellings) "pOsitive" H2).
  - exact (proj2 (proj2 status_accepts_listed_spellings)
             Examples.raw_patient3 "ER status" "pOsitive"
             (or_introl (conj eq_refl H3)) H2).
Defined.

(** C3 as stated fails: "pOsitive" is Positive up to letter case and is
    rejected. *)
Lemma mixed_case_status_rejected :
  same_ignoring_case "pOsitive" "Positive" /\
  validate_status "pOsitive" = inl (ValueError
    "Status must be one of: ['Positive', 'Negative', 'positive', 'negative', 'POSITIVE', 'NEGATIVE']").
Proof. split; reflexivity. Qed.

(** C10. With the other fields of a submission valid, any two strings,
    the empty one included, are accepted as Histology and Surgery_type
    and come out of validation and of [to_model_dict] as they went in;
    only their absence is an error. *)
Theorem free_text_fields_pass_through
    (raw : RawPatient) (p : PatientData) (histology surgery : string) :
  validate raw = inr p ->
  let p' :=
    {| Age := Age p; Gender := Gender p;
       Protein1 := Protein1 p; Protein2 := Protein2 p;
       Protein3 := Protein3 p; Protein4 := Protein4 p;
       Tumour_Stage := Tumour_Stage p;
       Histology := histology;
       ER_status := ER_status p; PR_status := PR_status p;
       HER2_status := HER2_status p;
       Surgery_type := surgery |} in
  validate (with_free_text raw (Some histology) (Some surgery)) = inr p' /\
  (exists data : gmap string value,
     to_model_dict p' = inr data /\
     data !! "Histology" = Some (VStr histology) /\
     data !! "Surgery_type" = Some (VStr surgery)) /\
  (exists errors,
     validate (with_free_text raw None (Some surgery)) = inl errors /\
     {| loc := "Histology"; err := missing |} ∈ errors) /\
  (exists errors,
     validate (with_free_text raw (Some histology) None) = inl errors /\
     {| loc := "Surgery_type"; err := missing |} ∈ errors).
Proof.
  intros H p'. apply validate_inr in H.
  destruct H as (H1 & H2 & H3 & H4 & H5 & H6 & H7 & _ & H9 & H10 & H11 & _).
  split; [| split; [| split]].
  - apply validate_inr. simpl. repeat split; assumption.
  - eexists. split; [apply to_model_dict_spec |]. split; reflexivity.
  - apply (validate_field_error _ "Histology").
    unfold field_checks. simpl. rewrite !elem_of_cons. tauto.
  - apply (validate_field_error _ "Surgery_type").
    unfold field_checks. simpl. rewrite !elem_of_cons. tauto.
Qed.

Lemma free_text_fields_pass_through_witness :
  validate Examples.raw_patient1 = inr Examples.patient1 /\
  validate (with_free_text Examples.raw_patient1 (Some EmptyString) (Some EmptyString))
    = inr {| Age := 68; Gender := "FEMALE";
             Protein1 := -5 # 10; Protein2 := 8 # 10;
             Protein3 := 2 # 10; Protein4 := -3 # 10;
             Tumour_Stage := "III"; Histology := EmptyString;
             ER_status := "Negative"; PR_status := "Negative";
             HER2_status := "Positive"; Surgery_type := EmptyString |}.
Proof.
  assert (H : validate Examples.raw_patient1 = inr Examples.patient1)
    by (vm_compute; reflexivity).
  split; [exact H |].
  exact (proj1 (free_text_fields_pass_through
                  Examples.raw_patient1 Examples.patient1 EmptyString EmptyString H)).
Defined.

End Request.

(** ** The endpoint *)

Section Endpoint.

Lemma field_checks_single (raw : RawPatient) (name : string)
    (l : list ErrorDetail) (d : ErrorDetail) :
  (name, l) ∈ field_checks raw -> d ∈ l -> l = [d] /\ loc d = name.
Proof.
  unfold field_checks. rewrite !elem_of_cons, elem_of_nil.
  intros H Hd.
  repeat (destruct H as [[= -> ->] | H]; [now apply field_errs in Hd |]).
  destruct H.
Qed.

(** C9, as the code has it. When the scaler or the model raises on the
    aligned row of a valid patient, the endpoint answers with status 500
    and the detail "Prediction error: " followed by the text of that
    exception; a submission that does not validate is answered with its
    validation errors, at least one, each carrying the name of a field
    whose own check failed with exactly that error. *)
Theorem prediction_failure_detail :
  (forall (float_str : Q -> string) (art : Artifacts) (p : PatientData)
          (patient_dict : gmap string value) (row : list (string * value))
          (e : exn),
     to_model_dict p = inr patient_dict ->
     align float_str art patient_dict = inr row ->
     (scaler_transform (scaler art) row = inl e \/
      exists xs, scaler_transform (scaler art) row = inr xs /\
                 model_predict (model art) xs = inl e) ->
     predict float_str art p =
       HTTPException 500 ("Prediction error: " +:+ str_exn e)) /\
  (forall (float_str : Q -> string) (art : Artifacts) (raw : RawPatient)
          (errors : list ErrorDetail),
     validate raw = inl errors ->
     post_predict float_str art raw = RequestValidationError errors /\
     errors <> [] /\
     forall d, d ∈ errors -> (loc d, [d]) ∈ field_checks raw).
Proof.
  split.
  - intros float_str art p patient_dict row e Hdict Hrow Hfail.
    unfold predict. rewrite Hdict. simpl.
    assert (H : predict_survival float_str art patient_dict = inl e).
    { apply predict_survival_inl. exists row. split; assumption. }
    now rewrite H.
  - intros float_str art raw errors H.
    unfold post_predict. rewrite H. split; [reflexivity |].
    apply validate_inl in H as [Hne ->]. split; [exact Hne |].
    intros d Hd. apply list_elem_of_In, in_concat in Hd as (l & Hl & Hd).
    apply list_elem_of_In, list_elem_of_fmap in Hl as ([name l'] & -> & Hl).
    simpl in Hd. apply list_elem_of_In in Hd.
    destruct (field_checks_single raw name l' d Hl Hd) as [-> <-].
    exact Hl.
Qed.

Lemma prediction_failure_detail_witness :
  (to_model_dict Examples.patient1 = inr (list_to_map
     [ ("Age", VInt 68); ("Gender", VStr "FEMALE");
       ("Protein1", VFloat (-5 # 10)); ("Protein2", VFloat (8 # 10));
       ("Protein3", VFloat (2 # 10)); ("Protein4", VFloat (-3 # 10));
       ("Tumour_Stage", VStr "III");
       ("Histology", VStr "Infiltrating Ductal Carcinoma");
       ("Surgery_type", VStr "Mastectomy");
       ("ER status", VStr "Negative"); ("PR status", VStr "Negative");
       ("HER2 status", VStr "Positive") ]) /\
   predict Sklearn.float_str Examples.stale_bundle Examples.patient1 =
     HTTPException 500
       "Prediction error: X has 2 features, but StandardScaler is expecting 3 features as input.") /\
  (validate Examples.raw_patient3 =
     inl [ {| loc := "ER status";
              err := value_error
                "Status must be one of: ['Positive', 'Negative', 'positive', 'negative', 'POSITIVE', 'NEGATIVE']" |} ] /\
   post_predict Sklearn.float_str Examples.bundle Examples.raw_patient3 =
     RequestValidationError
       [ {| loc := "ER status";
            err := value_error
              "Status must be one of: ['Positive', 'Negative', 'positive', 'negative', 'POSITIVE', 'NEGATIVE']" |} ]).
Proof.
  split.
  - assert (Hd : to_model_dict Examples.patient1 = inr (list_to_map
       [ ("Age", VInt 68); ("Gender", VStr "FEMALE");
         ("Protein1", VFloat (-5 # 10)); ("Protein2", VFloat (8 # 10));
         ("Protein3", VFloat (2 # 10)); ("Protein4", VFloat (-3 # 10));
         ("Tumour_Stage", VStr "III");
         ("Histology", VStr "Infiltrating Ductal Carcinoma");
         ("Surgery_type", VStr "Mastectomy");
         ("ER status", VStr "Negative"); ("PR status", VStr "Negative");
         ("HER2 status", VStr "Positive") ]))
      by (vm_compute; reflexivity).
    split; [exact Hd |].
    refine (proj1 prediction_failure_detail Sklearn.float_str
              Examples.stale_bundle Examples.patient1 _
              [("Age", VInt 68); ("Histology", VInt 0)]
              (Sklearn.shape_error "StandardScaler" 2 3) Hd _ _).
    + vm_compute; reflexivity.
    + left. vm_compute; reflexivity.
  - assert (Hv : validate Examples.raw_patient3 =
       inl [ {| loc := "ER status";
                err := value_error
                  "Status must be one of: ['Positive', 'Negative', 'positive', 'negative', 'POSITIVE', 'NEGATIVE']" |} ])
      by (vm_compute; reflexivity).
    split; [exact Hv |].
    exact (proj1 (proj2 prediction_failure_detail Sklearn.float_str
                    Examples.bundle Examples.raw_patient3 _ Hv)).
Defined.

(** C9 as stated fails: the detail sent to the caller contains the text
    of the scaler's exception, here from position 18 on. *)
Lemma detail_carries_exception_text :
  scaler_transform (scaler Examples.stale_bundle)
      [("Age", VInt 68); ("Histology", VInt 0)]
    = inl (ValueError
        "X has 2 features, but StandardScaler is expecting 3 features as input.") /\
  predict Sklearn.float_str Examples.stale_bundle Examples.patient1 =
    HTTPException 500
      "Prediction error: X has 2 features, but StandardScaler is expecting 3 features as input." /\
  String.index 0
    "X has 2 features, but StandardScaler is expecting 3 features as input."
    "Prediction error: X has 2 features, but StandardScaler is expecting 3 features as input."
    = Some 18.
Proof. repeat split; vm_compute; reflexivity. Qed.

End Endpoint.

(** ** Alignment to the feature schema *)

Section Schema.

Lemma encoded_numeric (float_str : Q -> string) (art : Artifacts)
    (c : string) (v : value) :
  is_numeric v = true \/ is_Some (label_encoders art !! c) ->
  is_numeric (encoded float_str art c v) = true.
Proof.
  unfold encoded. intros [H | [le H]].
  - now destruct (label_encoders art !! c).
  - now rewrite H.
Qed.

(** C5, as the code has it. For every patient record the alignment
    returns a row and never raises; the columns of the row are the
    schema's, in the schema's order and number, so no other column of the
    record is among them. Only the columns of the encoder table are
    encoded: every cell of the row is a number exactly when each schema
    column that holds a string in the record has an encoder, and a string
    in a schema column without one stays in the row. *)
Theorem aligned_row_follows_schema
    (float_str : Q -> string) (art : Artifacts)
    (patient_data : gmap string value) :
  exists row,
    align float_str art patient_data = inr row /\
    row.*1 = features (metadata art) /\
    length row = length (features (metadata art)) /\
    (forall c, c ∉ features (metadata art) -> c ∉ row.*1) /\
    ((forall c s,
        c ∈ features (metadata art) ->
        patient_data !! c = Some (VStr s) ->
        is_Some (label_encoders art !! c)) <->
     Forall (fun cell => is_numeric cell.2 = true) row) /\
    (forall i c s,
       features (metadata art) !! i = Some c ->
       patient_data !! c = Some (VStr s) ->
       label_encoders art !! c = None ->
       row !! i = Some (c, VStr s)).
Proof.
  destruct (align_Forall2 float_str art patient_data) as (row & Hrow & Hall).
  exists row. split; [exact Hrow |].
  pose proof (align_columns float_str art patient_data row Hrow) as Hcols.
  split; [exact Hcols |].
  split; [now rewrite <- Hcols, length_fmap |].
  split; [now rewrite Hcols |].
  assert (Hkept : forall i c s,
            features (metadata art) !! i = Some c ->
            patient_data !! c = Some (VStr s) ->
            label_encoders art !! c = None ->
            row !! i = Some (c, VStr s)).
  { intros i c s Hi Hs Hnone.
    rewrite (align_lookup float_str art patient_data row i c Hrow Hi), Hs.
    unfold encoded. now rewrite Hnone. }
  split; [split |]; [| | exact Hkept].
  - intros Henc. apply Forall_lookup. intros i cell Hi.
    destruct (Forall2_lookup_r _ _ _ _ _ Hall Hi) as (c & Hc & ->). simpl.
    apply encoded_numeric.
    destruct (patient_data !! c) as [[n | x | s] |] eqn:E; simpl; auto.
    right. apply (Henc c s); [eapply list_elem_of_lookup_2; eauto | exact E].
  - intros Hnum c s Hc Hs.
    destruct (label_encoders art !! c) as [le |] eqn:Hle; [eauto |].
    apply list_elem_of_lookup in Hc as [i Hi].
    pose proof (Hkept i c s Hi Hs Hle) as Hcell.
    pose proof (proj1 (Forall_lookup _ _) Hnum i _ Hcell) as Hbad.
    discriminate Hbad.
Qed.

Lemma aligned_row_follows_schema_witness :
  exists row,
    align Sklearn.float_str Examples.bundle Examples.unseen_histology = inr row /\
    row.*1 = ["Age"; "Histology"] /\
    length row = 2%nat /\
    Forall (fun cell => is_numeric cell.2 = true) row.
Proof.
  destruct (aligned_row_follows_schema Sklearn.float_str Examples.bundle
              Examples.unseen_histology) as (row & H1 & H2 & H3 & _ & H5 & _).
  exists row. repeat split; try assumption.
  apply (proj1 H5). intros c s Hc Hs.
  change (features (metadata Examples.bundle)) with ["Age"; "Histology"] in Hc.
  apply elem_of_cons in Hc as [-> | Hc].
  - vm_compute in Hs. discriminate Hs.
  - apply list_elem_of_singleton in Hc as ->. vm_compute. eauto.
Defined.

(** C5 as stated fails: the validated patient 1, aligned to a schema that
    lists Gender in a bundle without an encoder for it, gives a row that
    holds the string "FEMALE". *)
Lemma unencoded_string_in_row :
  validate Examples.raw_patient1 = inr Examples.patient1 /\
  label_encoders CliExamples.gender_bundle !! "Gender" = None /\
  exists patient_dict,
    to_model_dict Examples.patient1 = inr patient_dict /\
    align Sklearn.float_str CliExamples.gender_bundle patient_dict
      = inr [("Age", VInt 68); ("Gender", VStr "FEMALE")] /\
    is_numeric (VStr "FEMALE") = false.
Proof.
  split; [vm_compute; reflexivity |].
  split; [vm_compute; reflexivity |].
  eexists. split; [apply to_model_dict_spec |].
  split; [vm_compute; reflexivity | reflexivity].
Qed.

(** C6. When a column has an encoder and the record's value in that column
    is unknown to it, the encoding loop leaves the integer 0 in the
    column, the alignment returns a row, with 0 wherever the schema lists
    that column, and what [predict_survival] returns is what the scaler
    and the model make of that row: the unknown value raises nothing. *)
Theorem unknown_category_encoded_as_zero
    (float_str : Q -> string) (art : Artifacts)
    (patient_data : gmap string value)
    (col : string) (le : LabelEncoder) (v : value) :
  label_encoders art !! col = Some le ->
  patient_data !! col = Some v ->
  le_transform le (astype_str float_str v) = None ->
  encode float_str art (fill_missing art patient_data) !! col = Some (VInt 0) /\
  exists row,
    align float_str art patient_data = inr row /\
    (forall i, features (metadata art) !! i = Some col ->
               row !! i = Some (col, VInt 0)) /\
    predict_survival float_str art patient_data =
      (df_scaled ← scaler_transform (scaler art) row;
       predicted_days ← model_predict (model art) df_scaled;
       mret (report predicted_days)).
Proof.
  intros Hle Hv Hunknown.
  assert (Henc : encoded float_str art col v = VInt 0).
  { unfold encoded. now rewrite Hle, Hunknown. }
  split.
  - rewrite encode_lookup, fill_missing_lookup, Hv. simpl. now rewrite Henc.
  - destruct (align_Forall2 float_str art patient_data) as (row & Hrow & _).
    exists row. split; [exact Hrow |]. split.
    + intros i Hi.
      rewrite (align_lookup float_str art patient_data row i col Hrow Hi).
      rewrite Hv. simpl. now rewrite Henc.
    + unfold predict_survival. now rewrite Hrow.
Qed.

Lemma unknown_category_encoded_as_zero_witness :
  (label_encoders Examples.bundle !! "Histology" =
     Some (Sklearn.LabelEncoder_fit
             ["Infiltrating Ductal Carcinoma";
              "Infiltrating Lobular Carcinoma";
              "Mucinous Carcinoma"]) /\
   Examples.unseen_histology !! "Histology" = Some (VStr "Papillary Carcinoma")) /\
  encode Sklearn.float_str Examples.bundle
    (fill_missing Examples.bundle Examples.unseen_histology) !! "Histology"
    = Some (VInt 0).
Proof.
  assert (H1 : label_encoders Examples.bundle !! "Histology" =
     Some (Sklearn.LabelEncoder_fit
             ["Infiltrating Ductal Carcinoma";
              "Infiltrating Lobular Carcinoma";
              "Mucinous Carcinoma"])) by (vm_compute; reflexivity).
  assert (H2 : Examples.unseen_histology !! "Histology"
               = Some (VStr "Papillary Carcinoma")) by (vm_compute; reflexivity).
  split; [split; [exact H1 | exact H2] |].
  refine (proj1 (unknown_category_encoded_as_zero Sklearn.float_str
                   Examples.bundle Examples.unseen_histology
                   "Histology" _ _ H1 H2 _)).
  vm_compute; reflexivity.
Defined.

(** C7, as the code has it. For a schema feature absent from the record
    the alignment returns a row, and at that feature's position the row
    holds what the encoding loop makes of the filled-in 0: the integer 0
    when the feature has no encoder, or its encoder does not know the
    string "0", or knows it under code 0, and otherwise the encoder's
    code for "0". *)
Theorem missing_feature_filled
    (float_str : Q -> string) (art : Artifacts)
    (patient_data : gmap string value) (i : nat) (feature : string) :
  features (metadata art) !! i = Some feature ->
  patient_data !! feature = None ->
  exists row,
    align float_str art patient_data = inr row /\
    row !! i =
      Some (feature,
            VInt match label_encoders art !! feature with
                 | Some le => default 0%Z (le_transform le "0")
                 | None => 0%Z
                 end) /\
    (label_encoders art !! feature = None \/
     (exists le, label_encoders art !! feature = Some le /\
                 (le_transform le "0" = None \/ le_transform le "0" = Some 0%Z)) ->
     row !! i = Some (feature, VInt 0)).
Proof.
  intros Hi Hnone.
  destruct (align_Forall2 float_str art patient_data) as (row & Hrow & _).
  exists row. split; [exact Hrow |].
  rewrite (align_lookup float_str art patient_data row i feature Hrow Hi).
  rewrite Hnone. unfold encoded.
  change (astype_str float_str (default (VInt 0) None)) with "0".
  split.
  - now destruct (label_encoders art !! feature).
  - intros [-> | (le & -> & [-> | ->])]; reflexivity.
Qed.

Lemma missing_feature_filled_witness :
  (features (metadata Examples.bundle) !! 1%nat = Some "Histology" /\
   ({[ "Age" := VInt 50 ]} : gmap string value) !! "Histology" = None) /\
  exists row,
    align Sklearn.float_str Examples.bundle {[ "Age" := VInt 50 ]} = inr row /\
    row !! 1%nat = Some ("Histology", VInt 0).
Proof.
  assert (H1 : features (metadata Examples.bundle) !! 1%nat = Some "Histology")
    by reflexivity.
  assert (H2 : ({[ "Age" := VInt 50 ]} : gmap string value) !! "Histology" = None)
    by (vm_compute; reflexivity).
  split; [split; [exact H1 | exact H2] |].
  destruct (missing_feature_filled Sklearn.float_str Examples.bundle
              {[ "Age" := VInt 50 ]} 1 "Histology" H1 H2) as (row & Hrow & _ & H).
  exists row. split; [exact Hrow |].
  apply H. right. eexists. split; [vm_compute; reflexivity |].
  left. vm_compute; reflexivity.
Defined.

(** C7 as stated fails: with an encoder that knows "0" as its second
    class, the absent feature is filled with 0, encoded as the string
    "0", and holds 1 in the aligned row. *)
Lemma missing_feature_encoded_nonzero :
  features (metadata Examples.coded_bundle) !! 1%nat = Some "Menopause" /\
  ({[ "Age" := VInt 50 ]} : gmap string value) !! "Menopause" = None /\
  align Sklearn.float_str Examples.coded_bundle {[ "Age" := VInt 50 ]}
    = inr [("Age", VInt 50); ("Menopause", VInt 1)].
Proof. repeat split; vm_compute; reflexivity. Qed.

End Schema.

(** * Further properties *)

(** ** Letter case *)

Section LetterCase.

Lemma upper_char_lower_char (c : ascii) :
  PyStr.upper_char (PyStr.lower_char c) = PyStr.upper_char c.
Proof. destruct c as [[] [] [] [] [] [] [] []]; reflexivity. Qed.

Lemma upper_char_idem (c : ascii) :
  PyStr.upper_char (PyStr.upper_char c) = PyStr.upper_char c.
Proof. destruct c as [[] [] [] [] [] [] [] []]; reflexivity. Qed.

Lemma upper_lower (s : string) : PyStr.upper (PyStr.lower s) = PyStr.upper s.
Proof.
  induction s as [| c s IH]; simpl; [reflexivity |].
  now rewrite upper_char_lower_char, IH.
Qed.

Lemma upper_idem (s : string) : PyStr.upper (PyStr.upper s) = PyStr.upper s.
Proof.
  induction s as [| c s IH]; simpl; [reflexivity |].
  now rewrite upper_char_idem, IH.
Qed.

Lemma same_ignoring_case_upper (a b : string) :
  same_ignoring_case a b -> PyStr.upper a = PyStr.upper b.
Proof.
  unfold same_ignoring_case. intros H.
  now rewrite <- (upper_lower a), H, upper_lower.
Qed.

End LetterCase.

(** ** The field validators *)

Section Validators.

Local Open Scope Q_scope.

Lemma validate_gender_spec (v : string) :
  validate_gender v =
    if decide (PyStr.upper v = "MALE" \/ PyStr.upper v = "FEMALE")
    then inr (PyStr.upper v)
    else inl (ValueError
      "Gender must be one of: ['MALE', 'FEMALE', 'Male', 'Female', 'male', 'female']").
Proof.
  unfold validate_gender, PyStr.mem.
  change (map PyStr.upper ["MALE"; "FEMALE"; "Male"; "Female"; "male"; "female"])
    with ["MALE"; "FEMALE"; "MALE"; "FEMALE"; "MALE"; "FEMALE"].
  destruct (decide (PyStr.upper v = "MALE" \/ PyStr.upper v = "FEMALE")) as [H | H].
  - rewrite bool_decide_eq_true_2; [reflexivity |].
    rewrite !elem_of_cons. tauto.
  - rewrite bool_decide_eq_false_2; [reflexivity |].
    rewrite !elem_of_cons, elem_of_nil. tauto.
Qed.

Lemma validate_tumour_stage_spec (v : string) :
  validate_tumour_stage v =
    if decide (PyStr.upper v = "I" \/ PyStr.upper v = "II" \/ PyStr.upper v = "III")
    then inr (PyStr.upper v)
    else inl (ValueError "Tumour_Stage must be one of: ['I', 'II', 'III']").
Proof.
  unfold validate_tumour_stage, PyStr.mem.
  destruct (decide (PyStr.upper v = "I" \/ PyStr.upper v = "II"
                    \/ PyStr.upper v = "III")) as [H | H].
  - rewrite bool_decide_eq_true_2; [reflexivity |].
    rewrite !elem_of_cons. tauto.
  - rewrite bool_decide_eq_false_2; [reflexivity |].
    rewrite !elem_of_cons, elem_of_nil. tauto.
Qed.

(** X1. The gender validator ignores letter case: every spelling of male
    or female, mixed case included, is accepted and becomes "MALE" or
    "FEMALE"; a string that is neither, upper-cased, is refused with the
    message that lists the six spellings. *)
Theorem gender_ignores_case (v : string) :
  (same_ignoring_case v "male" -> validate_gender v = inr "MALE") /\
  (same_ignoring_case v "female" -> validate_gender v = inr "FEMALE") /\
  (PyStr.upper v <> "MALE" -> PyStr.upper v <> "FEMALE" ->
   validate_gender v = inl (ValueError
     "Gender must be one of: ['MALE', 'FEMALE', 'Male', 'Female', 'male', 'female']")) /\
  (forall g, validate_gender v = inr g ->
             g = PyStr.upper v /\ (g = "MALE" \/ g = "FEMALE")).
Proof.
  rewrite validate_gender_spec. repeat split.
  - intros H. apply same_ignoring_case_upper in H. change (PyStr.upper "male")
      with "MALE" in H. rewrite decide_True by tauto. now rewrite H.
  - intros H. apply same_ignoring_case_upper in H. change (PyStr.upper "female")
      with "FEMALE" in H. rewrite decide_True by tauto. now rewrite H.
  - intros H1 H2. rewrite decide_False by tauto. reflexivity.
  - destruct (decide _) in H; congruence.
  - destruct (decide _) as [Hd | Hd] in H; [| discriminate].
    injection H as <-. exact Hd.
Qed.

Lemma gender_ignores_case_witness :
  (same_ignoring_case "fEmAlE" "female" /\ validate_gender "fEmAlE" = inr "FEMALE") /\
  (PyStr.upper "woman" <> "MALE" /\ PyStr.upper "woman" <> "FEMALE" /\
   validate_gender "woman" = inl (ValueError
     "Gender must be one of: ['MALE', 'FEMALE', 'Male', 'Female', 'male', 'female']")).
Proof.
  assert (H1 : same_ignoring_case "fEmAlE" "female") by reflexivity.
  assert (H2 : PyStr.upper "woman" <> "MALE") by discriminate.
  assert (H3 : PyStr.upper "woman" <> "FEMALE") by discriminate.
  split; [split; [exact H1 |] | split; [exact H2 | split; [exact H3 |]]].
  - exact (proj1 (proj2 (gender_ignores_case "fEmAlE")) H1).
  - exact (proj1 (proj2 (proj2 (gender_ignores_case "woman"))) H2 H3).
Defined.

(** X2. The tumour-stage validator ignores letter case: i, ii and iii in
    any case are accepted and become "I", "II" or "III"; every other
    string of ASCII characters is refused with the message that lists the
    three stages; and whatever is accepted comes out as one of the three
    stages. (Outside ASCII Python's [upper] maps the dotless i onto I as
    well; such strings are not covered by the refusal.) *)
Theorem tumour_stage_ignores_case (v : string) :
  (forall stage, stage ∈ ["I"; "II"; "III"] ->
                 same_ignoring_case v stage ->
                 validate_tumour_stage v = inr stage) /\
  (ascii_only v = true ->
   PyStr.upper v ∉ ["I"; "II"; "III"] ->
   validate_tumour_stage v =
     inl (ValueError "Tumour_Stage must be one of: ['I', 'II', 'III']")) /\
  (forall t, validate_tumour_stage v = inr t -> t ∈ ["I"; "II"; "III"]).
Proof.
  rewrite validate_tumour_stage_spec. repeat split.
  - intros stage Hstage H. apply same_ignoring_case_upper in H.
    rewrite !elem_of_cons, elem_of_nil in Hstage.
    destruct Hstage as [-> | [-> | [-> | []]]];
      (rewrite decide_True by (rewrite H; simpl; tauto)); now rewrite H.
  - intros _ H. rewrite !elem_of_cons, elem_of_nil in H.
    rewrite decide_False by tauto. reflexivity.
  - intros t H. destruct (decide _) as [Hd | Hd] in H; [| discriminate].
    injection H as <-. rewrite !elem_of_cons. tauto.
Qed.

Lemma tumour_stage_ignores_case_witness :
  (("III" ∈ ["I"; "II"; "III"]) /\ same_ignoring_case "iIi" "III" /\
   validate_tumour_stage "iIi" = inr "III") /\
  (ascii_only "IV" = true /\ (PyStr.upper "IV" ∉ ["I"; "II"; "III"]) /\
   validate_tumour_stage "IV" =
     inl (ValueError "Tumour_Stage must be one of: ['I', 'II', 'III']")).
Proof.
  assert (H1 : "III" ∈ ["I"; "II"; "III"])
    by (apply (bool_decide_unpack _); vm_compute; exact I).
  assert (H2 : same_ignoring_case "iIi" "III") by reflexivity.
  assert (H3 : PyStr.upper "IV" ∉ ["I"; "II"; "III"])
    by (apply (bool_decide_unpack _); vm_compute; exact I).
  assert (H4 : ascii_only "IV" = true) by reflexivity.
  split; [split; [exact H1 | split; [exact H2 |]] |
          split; [exact H4 | split; [exact H3 |]]].
  - exact (proj1 (tumour_stage_ignores_case "iIi") "III" H1 H2).
  - exact (proj1 (proj2 (tumour_stage_ignores_case "IV")) H4 H3).
Defined.

End Validators.

(** ** Bounds and the validated record *)

Section Bounds.

Local Open Scope Q_scope.

Lemma int_ge_le_inr (lo hi n m : Z) :
  int_ge_le lo hi n = inr m <-> m = n /\ (lo <= n <= hi)%Z.
Proof.
  unfold int_ge_le.
  destruct (Z.ltb_spec n lo), (Z.ltb_spec hi n); split;
    try discriminate; try (intros [_ ?]; lia).
  - intros [= <-]. split; [reflexivity | lia].
  - now intros [-> _].
Qed.

Lemma float_ge_le_inr (lo hi x y : Q) :
  float_ge_le lo hi x = inr y <-> y = x /\ lo <= x <= hi.
Proof.
  unfold float_ge_le.
  destruct (PyNum.Qltb x lo) eqn:E1.
  { apply Qltb_lt in E1. split; [discriminate | intros [_ ?]; lra]. }
  apply Qltb_ge in E1.
  destruct (PyNum.Qltb hi x) eqn:E2.
  { apply Qltb_lt in E2. split; [discriminate | intros [_ ?]; lra]. }
  apply Qltb_ge in E2. split.
  - intros [= <-]. split; [reflexivity | split; assumption].
  - now intros [-> _].
Qed.

Lemma field_inr {A B : Type} (name : string) (input : option A)
    (check : A -> error_type + B) (b : B) :
  field name input check = inr b <->
  exists a, input = Some a /\ check a = inr b.
Proof.
  unfold field. destruct input as [a |].
  - destruct (check a) as [e | b'] eqn:E; split.
    + discriminate.
    + intros (a' & [= <-] & H). congruence.
    + intros [= <-]. now exists a.
    + intros (a' & [= <-] & H). congruence.
  - split; [discriminate | intros (a & H & _); discriminate].
Qed.

Lemma float_field_low (name : string) (x : Q) :
  x < -5 ->
  errs (field name (Some x) (float_ge_le (-5) 5)) =
    [ {| loc := name; err := greater_than_equal (-5) |} ].
Proof.
  intros H. unfold field, float_ge_le.
  now rewrite (proj2 (Qltb_lt x (-5)) H).
Qed.

Lemma float_field_high (name : string) (x : Q) :
  5 < x ->
  errs (field name (Some x) (float_ge_le (-5) 5)) =
    [ {| loc := name; err := less_than_equal 5 |} ].
Proof.
  intros H. unfold field, float_ge_le.
  assert (E : PyNum.Qltb x (-5) = false) by (apply Qltb_ge; lra).
  now rewrite E, (proj2 (Qltb_lt 5 x) H).
Qed.

(** X3. A submitted age below 18 is refused with the error
    [greater_than_equal 18] at the field Age, one above 100 with
    [less_than_equal 100]; an age that passes is between 18 and 100 and
    is in the validated record as submitted. *)
Theorem age_bounds_enforced (raw : RawPatient) (n : Z) :
  raw_Age raw = Some n ->
  ((n < 18)%Z ->
   exists errors,
     validate raw = inl errors /\
     {| loc := "Age"; err := greater_than_equal 18 |} ∈ errors) /\
  ((100 < n)%Z ->
   exists errors,
     validate raw = inl errors /\
     {| loc := "Age"; err := less_than_equal 100 |} ∈ errors) /\
  (forall p, validate raw = inr p -> Age p = n /\ (18 <= n <= 100)%Z).
Proof.
  intros Hn. split; [| split].
  - intros H. apply (validate_field_error raw "Age").
    unfold field_checks. rewrite Hn. unfold field, int_ge_le.
    rewrite (proj2 (Z.ltb_lt n 18) H). rewrite !elem_of_cons. now left.
  - intros H. apply (validate_field_error raw "Age").
    unfold field_checks. rewrite Hn. unfold field, int_ge_le.
    rewrite (proj2 (Z.ltb_ge n 18)) by lia.
    rewrite (proj2 (Z.ltb_lt 100 n) H). rewrite !elem_of_cons. now left.
  - intros p Hp. apply validate_inr in Hp as (H & _).
    apply field_inr in H as (a & Ha & H).
    assert (a = n) as -> by congruence.
    now apply int_ge_le_inr in H.
Qed.

Lemma age_bounds_enforced_witness :
  raw_Age Examples.raw_patient1 = Some 68%Z /\
  Age Examples.patient1 = 68%Z /\ (18 <= 68 <= 100)%Z.
Proof.
  assert (H : raw_Age Examples.raw_patient1 = Some 68%Z) by reflexivity.
  assert (Hv : validate Examples.raw_patient1 = inr Examples.patient1)
    by (vm_compute; reflexivity).
  split; [exact H |].
  exact (proj2 (proj2 (age_bounds_enforced Examples.raw_patient1 68 H))
           Examples.patient1 Hv).
Defined.

(** X4. Each of the four protein levels is refused below -5 with
    [greater_than_equal -5] and above 5 with [less_than_equal 5], at its
    own field; the levels of a validated record are those submitted and
    lie between -5 and 5. *)
Theorem protein_bounds_enforced (raw : RawPatient) :
  (forall name x,
     (name = "Protein1" /\ raw_Protein1 raw = Some x) \/
     (name = "Protein2" /\ raw_Protein2 raw = Some x) \/
     (name = "Protein3" /\ raw_Protein3 raw = Some x) \/
     (name = "Protein4" /\ raw_Protein4 raw = Some x) ->
     (x < -5 ->
      exists errors,
        validate raw = inl errors /\
        {| loc := name; err := greater_than_equal (-5) |} ∈ errors) /\
     (5 < x ->
      exists errors,
        validate raw = inl errors /\
        {| loc := name; err := less_than_equal 5 |} ∈ errors)) /\
  (forall p,
     validate raw = inr p ->
     (raw_Protein1 raw = Some (Protein1 p) /\ -5 <= Protein1 p <= 5) /\
     (raw_Protein2 raw = Some (Protein2 p) /\ -5 <= Protein2 p <= 5) /\
     (raw_Protein3 raw = Some (Protein3 p) /\ -5 <= Protein3 p <= 5) /\
     (raw_Protein4 raw = Some (Protein4 p) /\ -5 <= Protein4 p <= 5)).
Proof.
  split.
  - intros name x Hfield. split; intros Hx;
      apply (validate_field_error raw name); unfold field_checks;
      destruct Hfield as [[-> E] | [[-> E] | [[-> E] | [-> E]]]];
      rewrite E;
      rewrite ?(float_field_low _ x Hx), ?(float_field_high _ x Hx);
      rewrite !elem_of_cons; tauto.
  - intros p Hp.
    apply validate_inr in Hp as (_ & _ & H1 & H2 & H3 & H4 & _).
    apply field_inr in H1 as (x1 & E1 & H1), H2 as (x2 & E2 & H2),
      H3 as (x3 & E3 & H3), H4 as (x4 & E4 & H4).
    apply float_ge_le_inr in H1 as [-> ?], H2 as [-> ?],
      H3 as [-> ?], H4 as [-> ?].
    repeat split; tauto.
Qed.

Lemma protein_bounds_enforced_witness :
  validate Examples.raw_patient1 = inr Examples.patient1 /\
  raw_Protein1 Examples.raw_patient1 = Some (Protein1 Examples.patient1) /\
  -5 <= Protein1 Examples.patient1 <= 5.
Proof.
  assert (Hv : validate Examples.raw_patient1 = inr Examples.patient1)
    by (vm_compute; reflexivity).
  split; [exact Hv |].
  exact (proj1 (proj2 (protein_bounds_enforced Examples.raw_patient1)
                  Examples.patient1 Hv)).
Defined.

(** X5. Every record that validation returns has its categorical fields
    in canonical form: the gender is "MALE" or "FEMALE", the tumour stage
    "I", "II" or "III", and each of the three statuses "Positive" or
    "Negative". *)
Theorem validated_record_canonical (raw : RawPatient) (p : PatientData) :
  validate raw = inr p ->
  Gender p ∈ ["MALE"; "FEMALE"] /\
  Tumour_Stage p ∈ ["I"; "II"; "III"] /\
  ER_status p ∈ ["Positive"; "Negative"] /\
  PR_status p ∈ ["Positive"; "Negative"] /\
  HER2_status p ∈ ["Positive"; "Negative"].
Proof.
  intros Hp.
  apply validate_inr in Hp
    as (_ & Hg & _ & _ & _ & _ & Ht & _ & He & Hpr & Hh & _).
  assert (Hstatus : forall name input s,
            field name input (validator validate_status) = inr s ->
            s ∈ ["Positive"; "Negative"]).
  { intros name input s H. apply field_inr in H as (v & _ & H).
    unfold validator in H. rewrite validate_status_spec in H.
    destruct (decide (v ∈ status_allowed)) as [Hv | Hv]; [| discriminate].
    injection H as <-. rewrite !elem_of_cons.
    destruct (all_status_allowed_cases v Hv); tauto. }
  repeat split; eauto.
  - apply field_inr in Hg as (v & _ & H). unfold validator in H.
    rewrite validate_gender_spec in H.
    destruct (decide _) as [Hd | Hd] in H; [| discriminate].
    injection H as <-. rewrite !elem_of_cons. tauto.
  - apply field_inr in Ht as (v & _ & H). unfold validator in H.
    rewrite validate_tumour_stage_spec in H.
    destruct (decide _) as [Hd | Hd] in H; [| discriminate].
    injection H as <-. rewrite !elem_of_cons. tauto.
Qed.

Lemma validated_record_canonical_witness :
  validate Examples.raw_patient2 =
    inr {| Age := 18; Gender := "FEMALE";
           Protein1 := 95 # 100; Protein2 := 215 # 100;
           Protein3 := 8 # 1000; Protein4 := -5 # 100;
           Tumour_Stage := "I"; Histology := "Mucinous Carcinoma";
           ER_status := "Positive"; PR_status := "Positive";
           HER2_status := "Negative"; Surgery_type := "Other" |} /\
  "FEMALE" ∈ ["MALE"; "FEMALE"].
Proof.
  assert (Hv : validate Examples.raw_patient2 =
    inr {| Age := 18; Gender := "FEMALE";
           Protein1 := 95 # 100; Protein2 := 215 # 100;
           Protein3 := 8 # 1000; Protein4 := -5 # 100;
           Tumour_Stage := "I"; Histology := "Mucinous Carcinoma";
           ER_status := "Positive"; PR_status := "Positive";
           HER2_status := "Negative"; Surgery_type := "Other" |})
    by (vm_compute; reflexivity).
  split; [exact Hv |].
  exact (proj1 (validated_record_canonical _ _ Hv)).
Defined.

End Bounds.

(** ** Normal forms and the model dict *)

Section NormalForms.

Lemma validator_fixed (f : string -> raising string) (name : string)
    (input : option string) (s : string) :
  (forall v w, f v = inr w -> f w = inr w) ->
  field name input (validator f) = inr s ->
  field name (Some s) (validator f) = inr s.
Proof.
  intros Hf H. apply field_inr in H as (v & _ & H).
  unfold validator in H. destruct (f v) as [e | w] eqn:E; [discriminate |].
  injection H as <-. unfold field, validator. now rewrite (Hf v w E).
Qed.

Lemma validate_gender_fixed (v w : string) :
  validate_gender v = inr w -> validate_gender w = inr w.
Proof.
  rewrite !validate_gender_spec.
  destruct (decide _) as [H | H]; [| discriminate].
  intros [= <-]. rewrite upper_idem. now rewrite decide_True.
Qed.

Lemma validate_tumour_stage_fixed (v w : string) :
  validate_tumour_stage v = inr w -> validate_tumour_stage w = inr w.
Proof.
  rewrite !validate_tumour_stage_spec.
  destruct (decide _) as [H | H]; [| discriminate].
  intros [= <-]. rewrite upper_idem. now rewrite decide_True.
Qed.

Lemma validate_status_fixed (v w : string) :
  validate_status v = inr w -> validate_status w = inr w.
Proof.
  rewrite (validate_status_spec v).
  destruct (decide (v ∈ status_allowed)) as [H | H]; [| discriminate].
  intros [= <-].
  destruct (all_status_allowed_cases v H) as [-> | ->]; reflexivity.
Qed.

(** X6. Validation is idempotent: a record that validation returned,
    submitted again field by field, is accepted and returned as it is. *)
Theorem validation_idempotent (raw : RawPatient) (p : PatientData) :
  validate raw = inr p -> validate (resubmit p) = inr p.
Proof.
  intros Hp. apply validate_inr in Hp
    as (Ha & Hg & H1 & H2 & H3 & H4 & Ht & _ & He & Hpr & Hh & _).
  apply validate_inr. simpl.
  assert (Hfloat : forall name input x,
            field name input (float_ge_le (-5) 5) = inr x ->
            field name (Some x) (float_ge_le (-5) 5) = inr x).
  { intros name input x H. apply field_inr in H as (y & _ & H).
    apply field_inr. exists x. split; [reflexivity |].
    apply float_ge_le_inr in H as [-> H]. now apply float_ge_le_inr. }
  assert (Hage : field "Age" (Some (Age p)) (int_ge_le 18 100) = inr (Age p)).
  { apply field_inr in Ha as (n & _ & H). apply field_inr.
    exists (Age p). split; [reflexivity |].
    apply int_ge_le_inr in H as [-> H]. now apply int_ge_le_inr. }
  repeat split;
    eauto using validator_fixed, validate_gender_fixed,
      validate_tumour_stage_fixed, validate_status_fixed.
Qed.

Lemma validation_idempotent_witness :
  validate Examples.raw_patient2 =
    inr {| Age := 18; Gender := "FEMALE";
           Protein1 := 95 # 100; Protein2 := 215 # 100;
           Protein3 := 8 # 1000; Protein4 := -5 # 100;
           Tumour_Stage := "I"; Histology := "Mucinous Carcinoma";
           ER_status := "Positive"; PR_status := "Positive";
           HER2_status := "Negative"; Surgery_type := "Other" |} /\
  validate (resubmit
    {| Age := 18; Gender := "FEMALE";
       Protein1 := 95 # 100; Protein2 := 215 # 100;
       Protein3 := 8 # 1000; Protein4 := -5 # 100;
       Tumour_Stage := "I"; Histology := "Mucinous Carcinoma";
       ER_status := "Positive"; PR_status := "Positive";
       HER2_status := "Negative"; Surgery_type := "Other" |}) =
    inr {| Age := 18; Gender := "FEMALE";
           Protein1 := 95 # 100; Protein2 := 215 # 100;
           Protein3 := 8 # 1000; Protein4 := -5 # 100;
           Tumour_Stage := "I"; Histology := "Mucinous Carcinoma";
           ER_status := "Positive"; PR_status := "Positive";
           HER2_status := "Negative"; Surgery_type := "Other" |}.
Proof.
  assert (Hv : validate Examples.raw_patient2 =
    inr {| Age := 18; Gender := "FEMALE";
           Protein1 := 95 # 100; Protein2 := 215 # 100;
           Protein3 := 8 # 1000; Protein4 := -5 # 100;
           Tumour_Stage := "I"; Histology := "Mucinous Carcinoma";
           ER_status := "Positive"; PR_status := "Positive";
           HER2_status := "Negative"; Surgery_type := "Other" |})
    by (vm_compute; reflexivity).
  split; [exact Hv |].
  exact (validation_idempotent _ _ Hv).
Defined.

(** X7. [to_model_dict] never raises: the three [pop] calls find their
    keys. The dict it returns has twelve keys, the nine unaliased field
    names and "ER status", "PR status", "HER2 status" with a space; the
    keys "ER_status", "PR_status" and "HER2_status" are gone, and every
    value is the record's. *)
Theorem to_model_dict_keys (p : PatientData) :
  exists data : gmap string value,
    to_model_dict p = inr data /\
    dom data =
      list_to_set
        ["Age"; "Gender"; "Protein1"; "Protein2"; "Protein3"; "Protein4";
         "Tumour_Stage"; "Histology"; "Surgery_type";
         "ER status"; "PR status"; "HER2 status"] /\
    size data = 12%nat /\
    data !! "ER_status" = None /\
    data !! "PR_status" = None /\
    data !! "HER2_status" = None /\
    data !! "ER status" = Some (VStr (ER_status p)) /\
    data !! "PR status" = Some (VStr (PR_status p)) /\
    data !! "HER2 status" = Some (VStr (HER2_status p)) /\
    data !! "Age" = Some (VInt (Age p)) /\
    data !! "Gender" = Some (VStr (Gender p)) /\
    data !! "Tumour_Stage" = Some (VStr (Tumour_Stage p)).
Proof.
  eexists. split; [apply to_model_dict_spec |].
  split; [now rewrite dom_list_to_map_L |].
  split; [| repeat split; reflexivity].
  destruct p. vm_compute. reflexivity.
Qed.

End NormalForms.

(** ** What the aligned row depends on *)

Section RowContents.

Variable float_str : Q -> string.
Variable art : Artifacts.

Abbreviation schema' := (features (metadata art)).

Lemma align_eq_fmap (patient_data : gmap string value) :
  align float_str art patient_data =
    inr ((fun c => (c, encoded float_str art c
                         (default (VInt 0) (patient_data !! c)))) <$> schema').
Proof.
  destruct (align_Forall2 float_str art patient_data) as (row & -> & Hall).
  f_equal. induction Hall as [| c cell cs row -> _ IH]; [reflexivity |].
  rewrite fmap_cons. now f_equal.
Qed.

Lemma align_ext (pd1 pd2 : gmap string value) :
  (forall c, c ∈ schema' ->
     encoded float_str art c (default (VInt 0) (pd1 !! c)) =
     encoded float_str art c (default (VInt 0) (pd2 !! c))) ->
  align float_str art pd1 = align float_str art pd2.
Proof.
  intros H. rewrite !align_eq_fmap. f_equal.
  apply list_fmap_ext. intros i c Hc.
  f_equal. apply H. eapply list_elem_of_lookup_2; eauto.
Qed.

Lemma predict_survival_ext (pd1 pd2 : gmap string value) :
  align float_str art pd1 = align float_str art pd2 ->
  predict_survival float_str art pd1 = predict_survival float_str art pd2.
Proof. unfold predict_survival. now intros ->. Qed.

(** X8. Only the schema's columns count: two records that agree on every
    feature of the schema give the same aligned row and the same outcome
    of [predict_survival], whatever else they contain. *)
Theorem extra_columns_ignored (pd1 pd2 : gmap string value) :
  (forall c, c ∈ features (metadata art) -> pd1 !! c = pd2 !! c) ->
  align float_str art pd1 = align float_str art pd2 /\
  predict_survival float_str art pd1 = predict_survival float_str art pd2.
Proof.
  intros H.
  assert (Ha : align float_str art pd1 = align float_str art pd2).
  { apply align_ext. intros c Hc. now rewrite (H c Hc). }
  split; [exact Ha | now apply predict_survival_ext].
Qed.

(** X9. Leaving a column out is the same as submitting the integer 0 in
    it: adding [col: 0] to a record without that column changes neither
    the aligned row nor the outcome. *)
Theorem absent_column_is_zero (patient_data : gmap string value) (col : string) :
  patient_data !! col = None ->
  align float_str art (<[col := VInt 0]> patient_data)
    = align float_str art patient_data /\
  predict_survival float_str art (<[col := VInt 0]> patient_data)
    = predict_survival float_str art patient_data.
Proof.
  intros Hnone.
  assert (Ha : align float_str art (<[col := VInt 0]> patient_data)
               = align float_str art patient_data).
  { apply align_ext. intros c _. destruct (decide (c = col)) as [-> | Hne].
    - now rewrite lookup_insert_eq, Hnone.
    - now rewrite lookup_insert_ne by congruence. }
  split; [exact Ha | now apply predict_survival_ext].
Qed.

(** X10. A category unknown to a column's encoder is treated as the class
    the encoder codes 0, as the comment in the [except] branch says: with
    either value in that column the aligned row and the outcome are the
    same. *)
Theorem unknown_category_is_first_class
    (patient_data : gmap string value) (col : string) (le : LabelEncoder)
    (v : value) (first : string) :
  label_encoders art !! col = Some le ->
  le_transform le (astype_str float_str v) = None ->
  le_transform le first = Some 0%Z ->
  align float_str art (<[col := v]> patient_data)
    = align float_str art (<[col := VStr first]> patient_data) /\
  predict_survival float_str art (<[col := v]> patient_data)
    = predict_survival float_str art (<[col := VStr first]> patient_data).
Proof.
  intros Hle Hv Hfirst.
  assert (Ha : align float_str art (<[col := v]> patient_data)
               = align float_str art (<[col := VStr first]> patient_data)).
  { apply align_ext. intros c _. destruct (decide (c = col)) as [-> | Hne].
    - rewrite !lookup_insert_eq. unfold encoded. rewrite Hle. simpl.
      now rewrite Hv, Hfirst.
    - now rewrite !lookup_insert_ne by congruence. }
  split; [exact Ha | now apply predict_survival_ext].
Qed.

(** X11. A value the record holds in a schema column reaches the row at
    that column's position as the encoder's code when the column has an
    encoder that knows it, and unchanged when the column has no
    encoder. *)
Theorem present_column_encoded_or_kept
    (patient_data : gmap string value) (row : list (string * value))
    (i : nat) (col : string) (v : value) :
  align float_str art patient_data = inr row ->
  features (metadata art) !! i = Some col ->
  patient_data !! col = Some v ->
  (forall le code,
     label_encoders art !! col = Some le ->
     le_transform le (astype_str float_str v) = Some code ->
     row !! i = Some (col, VInt code)) /\
  (label_encoders art !! col = None -> row !! i = Some (col, v)).
Proof.
  intros Hrow Hi Hv.
  rewrite (align_lookup float_str art patient_data row i col Hrow Hi), Hv.
  unfold encoded. simpl. split.
  - intros le code -> ->. reflexivity.
  - intros ->. reflexivity.
Qed.

(** X12. The columns of the frame after the two loops are those of the
    record and those of the schema: filling adds the schema's missing
    columns, and encoding adds none, so an encoder for a column that is
    in neither creates nothing. *)
Theorem frame_columns (patient_data : gmap string value) :
  dom (encode float_str art (fill_missing art patient_data))
    = dom patient_data ∪ list_to_set (features (metadata art)).
Proof.
  apply set_eq. intros c.
  rewrite elem_of_union, !elem_of_dom, elem_of_list_to_set.
  rewrite encode_lookup, fill_missing_lookup, fmap_is_Some.
  destruct (patient_data !! c) as [v |].
  - split; [left | intros _]; eauto.
  - destruct (decide (c ∈ schema')) as [Hc | Hc].
    + split; [now right | intros _; eauto].
    + split; [intros [? H]; discriminate |].
      intros [[? H] | H]; [discriminate | contradiction].
Qed.

End RowContents.

Lemma extra_columns_ignored_witness :
  (forall c, c ∈ features (metadata Examples.bundle) ->
     (<["Ward" := VStr "B"]> Examples.unseen_histology) !! c
       = Examples.unseen_histology !! c) /\
  predict_survival Sklearn.float_str Examples.bundle
      (<["Ward" := VStr "B"]> Examples.unseen_histology)
    = predict_survival Sklearn.float_str Examples.bundle Examples.unseen_histology.
Proof.
  assert (H : forall c, c ∈ features (metadata Examples.bundle) ->
     (<["Ward" := VStr "B"]> Examples.unseen_histology) !! c
       = Examples.unseen_histology !! c).
  { intros c Hc.
    change (features (metadata Examples.bundle)) with ["Age"; "Histology"] in Hc.
    apply lookup_insert_ne. intros <-.
    rewrite !elem_of_cons, elem_of_nil in Hc.
    destruct Hc as [Hc | [Hc | []]]; discriminate Hc. }
  split; [exact H |].
  exact (proj2 (extra_columns_ignored Sklearn.float_str Examples.bundle _ _ H)).
Defined.

Lemma absent_column_is_zero_witness :
  ({[ "Age" := VInt 50 ]} : gmap string value) !! "Histology" = None /\
  predict_survival Sklearn.float_str Examples.bundle
      (<["Histology" := VInt 0]> {[ "Age" := VInt 50 ]})
    = predict_survival Sklearn.float_str Examples.bundle {[ "Age" := VInt 50 ]}.
Proof.
  assert (H : ({[ "Age" := VInt 50 ]} : gmap string value) !! "Histology" = None)
    by (vm_compute; reflexivity).
  split; [exact H |].
  exact (proj2 (absent_column_is_zero Sklearn.float_str Examples.bundle _ _ H)).
Defined.

Lemma unknown_category_is_first_class_witness :
  label_encoders Examples.bundle !! "Histology" =
     Some (Sklearn.LabelEncoder_fit
             ["Infiltrating Ductal Carcinoma";
              "Infiltrating Lobular Carcinoma";
              "Mucinous Carcinoma"]) /\
  predict_survival Sklearn.float_str Examples.bundle
      (<["Histology" := VStr "Papillary Carcinoma"]> {[ "Age" := VInt 50 ]})
    = predict_survival Sklearn.float_str Examples.bundle
        (<["Histology" := VStr "Infiltrating Ductal Carcinoma"]>
           {[ "Age" := VInt 50 ]}).
Proof.
  assert (H1 : label_encoders Examples.bundle !! "Histology" =
     Some (Sklearn.LabelEncoder_fit
             ["Infiltrating Ductal Carcinoma";
              "Infiltrating Lobular Carcinoma";
              "Mucinous Carcinoma"])) by (vm_compute; reflexivity).
  split; [exact H1 |].
  refine (proj2 (unknown_category_is_first_class Sklearn.float_str
                   Examples.bundle {[ "Age" := VInt 50 ]} "Histology" _
                   (VStr "Papillary Carcinoma")
                   "Infiltrating Ductal Carcinoma" H1 _ _));
    vm_compute; reflexivity.
Defined.

Lemma present_column_encoded_or_kept_witness :
  align Sklearn.float_str Examples.bundle
      {[ "Age" := VInt 50; "Histology" := VStr "Mucinous Carcinoma" ]}
    = inr [("Age", VInt 50); ("Histology", VInt 2)] /\
  ([("Age", VInt 50); ("Histology", VInt 2)] : list (string * value)) !! 0%nat
    = Some ("Age", VInt 50).
Proof.
  assert (H : align Sklearn.float_str Examples.bundle
      {[ "Age" := VInt 50; "Histology" := VStr "Mucinous Carcinoma" ]}
    = inr [("Age", VInt 50); ("Histology", VInt 2)]) by (vm_compute; reflexivity).
  split; [exact H |].
  refine (proj2 (present_column_encoded_or_kept Sklearn.float_str
                   Examples.bundle _ _ 0 "Age" (VInt 50) H _ _) _);
    vm_compute; reflexivity.
Defined.

(** ** The figures of the report *)

Section Figures.

Local Open Scope Q_scope.

Lemma rint_close (x : Q) :
  x - (1 # 2) <= inject_Z (PyNum.rint x) <= x + (1 # 2).
Proof.
  pose proof (Qfloor_le x) as Hlo.
  pose proof (Qlt_floor x) as Hhi.
  rewrite inject_Z_plus in Hhi. change (inject_Z 1) with 1 in Hhi.
  unfold PyNum.rint.
  destruct (PyNum.Qltb (x - inject_Z (Qfloor x)) (1 # 2)) eqn:E1.
  { apply Qltb_lt in E1. lra. }
  apply Qltb_ge in E1.
  destruct (PyNum.Qltb (1 # 2) (x - inject_Z (Qfloor x))) eqn:E2.
  { rewrite inject_Z_plus. change (inject_Z 1) with 1. lra. }
  apply Qltb_ge in E2.
  destruct (Z.even (Qfloor x));
    rewrite ?inject_Z_plus; change (inject_Z 1) with 1; lra.
Qed.

Lemma rint_mono (x y : Q) : x <= y -> (PyNum.rint x <= PyNum.rint y)%Z.
Proof.
  intros Hxy.
  pose proof (Qfloor_resp_le x y Hxy) as Hf.
  destruct (Z.eq_dec (Qfloor x) (Qfloor y)) as [Heq | Hne].
  - unfold PyNum.rint. rewrite Heq.
    destruct (PyNum.Qltb (x - inject_Z (Qfloor y)) (1 # 2)) eqn:E1.
    { repeat match goal with |- context [if ?b then _ else _] => destruct b end;
        lia. }
    apply Qltb_ge in E1.
    assert (E1' : PyNum.Qltb (y - inject_Z (Qfloor y)) (1 # 2) = false)
      by (apply Qltb_ge; lra).
    rewrite E1'.
    destruct (PyNum.Qltb (1 # 2) (x - inject_Z (Qfloor y))) eqn:E2.
    { apply Qltb_lt in E2.
      rewrite (proj2 (Qltb_lt (1 # 2) (y - inject_Z (Qfloor y)))) by lra. lia. }
    repeat match goal with |- context [if ?b then _ else _] => destruct b end;
      lia.
  - destruct (rint_floor_or_succ x) as [-> | ->],
      (rint_floor_or_succ y) as [-> | ->]; lia.
Qed.

(** X13. The rounding of [predicted_days] moves the estimate by half a
    day at most: the reported number of days is within 1/2 of the
    estimate the model returned. (Rounding to whole days is exact on
    doubles; the months and years, which the program divides and rounds
    in floating point, are not covered.) *)
Theorem predicted_days_close (d : Q) :
  d - (1 # 2) <= predicted_days (report d) <= d + (1 # 2).
Proof.
  rewrite report_days, round_0_whole.
  pose proof (rint_close (d * 1)) as H. lra.
Qed.

(** X14. A larger estimate is never reported as fewer days: the rounded
    [predicted_days] grows with the estimate. *)
Theorem predicted_days_monotone (d1 d2 : Q) :
  d1 <= d2 -> predicted_days (report d1) <= predicted_days (report d2).
Proof.
  intros H. rewrite !report_days, !round_0_whole.
  rewrite <- Zle_Qle. apply rint_mono. lra.
Qed.

Lemma predicted_days_monotone_witness :
  (1795 # 10) <= (1796 # 10) /\
  predicted_days (report (1795 # 10)) <= predicted_days (report (1796 # 10)).
Proof.
  assert (H : (1795 # 10) <= (1796 # 10)) by (compute; discriminate).
  split; [exact H | exact (predicted_days_monotone _ _ H)].
Defined.

(** X15. A larger estimate never gives a tier of higher risk: along HIGH,
    ELEVATED, MODERATE, LOWER RISK the tier of the report moves with the
    estimate or stays. *)
Theorem tier_monotone (d1 d2 : Q) :
  d1 <= d2 ->
  (tier_rank (risk_category (report d1))
     <= tier_rank (risk_category (report d2)))%nat.
Proof.
  intros H.
  destruct (report_cases d1)
    as [(H1 & -> & _) | [(H1 & -> & _) | [(H1 & -> & _) | (H1 & -> & _)]]];
  destruct (report_cases d2)
    as [(H2 & -> & _) | [(H2 & -> & _) | [(H2 & -> & _) | (H2 & -> & _)]]];
    try (vm_compute; lia); exfalso; lra.
Qed.

Lemma tier_monotone_witness :
  100 <= 400 /\
  (tier_rank (risk_category (report 100))
     <= tier_rank (risk_category (report 400)))%nat.
Proof.
  assert (H : 100 <= 400) by (compute; discriminate).
  split; [exact H | exact (tier_monotone _ _ H)].
Defined.

End Figures.

(** ** The outcomes of a request *)

Section Outcomes.

Variable float_str : Q -> string.
Variable art : Artifacts.

(** X16. A request has one of three outcomes. It is answered with a
    result exactly when the body validates and the scaler and the model
    return on the aligned row, and the result is then the report of the
    model's estimate; it is answered with the validation errors exactly
    when the body does not validate; every other answer has status 500
    and a detail that starts with "Prediction error: ". *)
Theorem request_outcomes (raw : RawPatient) :
  (forall result,
     post_predict float_str art raw = Ok200 result <->
     exists p patient_dict row xs d,
       validate raw = inr p /\
       to_model_dict p = inr patient_dict /\
       align float_str art patient_dict = inr row /\
       scaler_transform (scaler art) row = inr xs /\
       model_predict (model art) xs = inr d /\
       result = report d) /\
  (forall errors,
     post_predict float_str art raw = RequestValidationError errors <->
     validate raw = inl errors) /\
  (forall status_code detail,
     post_predict float_str art raw = HTTPException status_code detail ->
     status_code = 500%Z /\
     exists p e, validate raw = inr p /\
                 detail = "Prediction error: " +:+ str_exn e).
Proof.
  unfold post_predict, predict.
  destruct (validate raw) as [errors | p].
  { split; [| split].
    - intros result. split; [discriminate |].
      intros (? & ? & ? & ? & ? & ? & _). discriminate.
    - intros errors'. split; congruence.
    - discriminate. }
  rewrite to_model_dict_spec. simpl.
  match goal with
  | |- context [predict_survival float_str art ?d] => set (patient_dict := d)
  end.
  destruct (predict_survival float_str art patient_dict) as [e | r] eqn:E.
  - split; [| split].
    + intros result. split; [discriminate |].
      intros (p' & dict' & row & xs & d & [= <-] & [= <-] & Ha & Hs & Hm & _).
      assert (H : predict_survival float_str art patient_dict = inr (report d)).
      { apply predict_survival_inr. now exists row, xs, d. }
      congruence.
    + intros errors. split; discriminate.
    + intros status_code detail [= <- <-]. split; [reflexivity |].
      now exists p, e.
  - split; [| split].
    + intros result. split.
      * intros [= <-].
        apply predict_survival_inr in E as (row & xs & d & Ha & Hs & Hm & ->).
        now exists p, patient_dict, row, xs, d.
      * intros (p' & dict' & row & xs & d & [= <-] & [= <-] & Ha & Hs & Hm & ->).
        assert (H : predict_survival float_str art patient_dict = inr (report d)).
        { apply predict_survival_inr. now exists row, xs, d. }
        congruence.
    + intros errors. split; discriminate.
    + discriminate.
Qed.

(** X17. The three statuses reach the model under their names with a
    space: a schema column "ER status", "PR status" or "HER2 status"
    holds the patient's status, encoded if the column has an encoder,
    while a schema column named "ER_status", "PR_status" or "HER2_status"
    is treated as a missing feature and filled with 0. *)
Theorem statuses_reach_schema (p : PatientData) (i : nat) :
  exists patient_dict row,
    to_model_dict p = inr patient_dict /\
    align float_str art patient_dict = inr row /\
    (features (metadata art) !! i = Some "ER status" ->
     row !! i = Some ("ER status",
                      encoded float_str art "ER status" (VStr (ER_status p)))) /\
    (features (metadata art) !! i = Some "PR status" ->
     row !! i = Some ("PR status",
                      encoded float_str art "PR status" (VStr (PR_status p)))) /\
    (features (metadata art) !! i = Some "HER2 status" ->
     row !! i = Some ("HER2 status",
                      encoded float_str art "HER2 status" (VStr (HER2_status p)))) /\
    (forall c, c ∈ ["ER_status"; "PR_status"; "HER2_status"] ->
               features (metadata art) !! i = Some c ->
               row !! i = Some (c, encoded float_str art c (VInt 0))).
Proof.
  eexists. 
  destruct (align_Forall2 float_str art
              (list_to_map
                 [ ("Age", VInt (Age p)); ("Gender", VStr (Gender p));
                   ("Protein1", VFloat (Protein1 p));
                   ("Protein2", VFloat (Protein2 p));
                   ("Protein3", VFloat (Protein3 p));
                   ("Protein4", VFloat (Protein4 p));
                   ("Tumour_Stage", VStr (Tumour_Stage p));
                   ("Histology", VStr (Histology p));
                   ("Surgery_type", VStr (Surgery_type p));
                   ("ER status", VStr (ER_status p));
                   ("PR status", VStr (PR_status p));
                   ("HER2 status", VStr (HER2_status p)) ]))
    as (row & Hrow & _).
  exists row. split; [apply to_model_dict_spec |]. split; [exact Hrow |].
  repeat split.
  - intros Hi. now rewrite (align_lookup _ _ _ _ _ _ Hrow Hi).
  - intros Hi. now rewrite (align_lookup _ _ _ _ _ _ Hrow Hi).
  - intros Hi. now rewrite (align_lookup _ _ _ _ _ _ Hrow Hi).
  - intros c Hc Hi. rewrite (align_lookup _ _ _ _ _ _ Hrow Hi).
    rewrite !elem_of_cons, elem_of_nil in Hc.
    destruct Hc as [-> | [-> | [-> | []]]]; reflexivity.
Qed.

End Outcomes.

Lemma statuses_reach_schema_witness :
  features (metadata CliExamples.status_bundle) !! 1%nat = Some "ER status" /\
  exists patient_dict row,
    to_model_dict Examples.patient1 = inr patient_dict /\
    align Sklearn.float_str CliExamples.status_bundle patient_dict = inr row /\
    row !! 1%nat = Some ("ER status", VInt 0).
Proof.
  assert (Hi : features (metadata CliExamples.status_bundle) !! 1%nat
               = Some "ER status") by reflexivity.
  split; [exact Hi |].
  destruct (statuses_reach_schema Sklearn.float_str CliExamples.status_bundle
              Examples.patient1 1) as (patient_dict & row & H1 & H2 & H3 & _).
  exists patient_dict, row. split; [exact H1 | split; [exact H2 |]].
  rewrite (H3 Hi). vm_compute. reflexivity.
Defined.

(** ** The interactive mode *)

Section Interactive.

Variable py_int : string -> raising Z.
Variable py_float : string -> raising Q.

Local Open Scope Q_scope.

Lemma one_of_allowed (answer : string) (allowed : list string) (default : string) :
  default ∈ allowed -> one_of answer allowed default ∈ allowed.
Proof.
  intros Hd. unfold one_of, PyStr.mem.
  destruct (bool_decide (answer ∈ allowed)) eqn:E; [| exact Hd].
  now apply bool_decide_eq_true in E.
Qed.



(** The dict of a session whose five numbers were read. *)
Lemma interactive_patient_inr (a : Answers) (patient : gmap string value) :
  interactive_patient py_int py_float a = inr patient <->
  exists age p1 p2 p3 p4,
    int_or py_int (ans_age a) 50 = inr age /\
    float_or py_float (ans_p1 a) (5 # 10) = inr p1 /\
    float_or py_float (ans_p2 a) 1 = inr p2 /\
    float_or py_float (ans_p3 a) 0 = inr p3 /\
    float_or py_float (ans_p4 a) 0 = inr p4 /\
    patient = interactive_dict a age p1 p2 p3 p4.
Proof.
  unfold interactive_patient, interactive_dict.
  destruct (int_or py_int (ans_age a) 50) as [e | age]; simpl.
  { split; [discriminate | intros (? & ? & ? & ? & ? & H & _); discriminate]. }
  destruct (float_or py_float (ans_p1 a) (5 # 10)) as [e | p1]; simpl.
  { split; [discriminate | intros (? & ? & ? & ? & ? & _ & H & _); discriminate]. }
  destruct (float_or py_float (ans_p2 a) 1) as [e | p2]; simpl.
  { split; [discriminate | intros (? & ? & ? & ? & ? & _ & _ & H & _); discriminate]. }
  destruct (float_or py_float (ans_p3 a) 0) as [e | p3]; simpl.
  { split; [discriminate |
            intros (? & ? & ? & ? & ? & _ & _ & _ & H & _); discriminate]. }
  destruct (float_or py_float (ans_p4 a) 0) as [e | p4]; simpl.
  { split; [discriminate |
            intros (? & ? & ? & ? & ? & _ & _ & _ & _ & H & _); discriminate]. }
  generalize (one_of (ans_stage a) ["I"; "II"; "III"] "II").
  generalize (default "Infiltrating Ductal Carcinoma"
                (histology_map !! ans_hist a)).
  generalize (default "Lumpectomy" (surgery_map !! ans_surg a)).
  generalize (one_of (ans_er a) ["Positive"; "Negative"] "Positive").
  generalize (one_of (ans_pr a) ["Positive"; "Negative"] "Positive").
  generalize (one_of (ans_her2 a) ["Positive"; "Negative"] "Negative").
  intros her2 pr er surgery histology stage.
  unfold mret, raising_ret.
  match goal with
  | |- inr ?m = _ <-> _ =>
      assert (Hmap : m = list_to_map
        [ ("Age", VInt age); ("Gender", VStr "FEMALE");
          ("Protein1", VFloat p1); ("Protein2", VFloat p2);
          ("Protein3", VFloat p3); ("Protein4", VFloat p4);
          ("Tumour_Stage", VStr stage); ("Histology", VStr histology);
          ("Surgery_type", VStr surgery); ("ER status", VStr er);
          ("PR status", VStr pr); ("HER2 status", VStr her2) ])
        by (vm_compute; reflexivity);
      rewrite Hmap
  end.
  split.
  - intros [= <-]. now exists age, p1, p2, p3, p4.
  - intros (? & ? & ? & ? & ? & [= <-] & [= <-] & [= <-] & [= <-] & [= <-] & ->).
    reflexivity.
Qed.



(** X19. The interactive mode fails to build its patient only on a number
    that cannot be read: the exception is the one raised by [int] on the
    age or by [float] on a protein level. With Enter pressed at the five
    number prompts nothing is parsed and the numbers are the defaults 50,
    0.5, 1.0, 0.0 and 0.0. *)
Theorem interactive_number_errors (a : Answers) :
  (forall e,
     interactive_patient py_int py_float a = inl e ->
     ans_age a <> EmptyString /\ py_int (ans_age a) = inl e \/
     ans_p1 a <> EmptyString /\ py_float (ans_p1 a) = inl e \/
     ans_p2 a <> EmptyString /\ py_float (ans_p2 a) = inl e \/
     ans_p3 a <> EmptyString /\ py_float (ans_p3 a) = inl e \/
     ans_p4 a <> EmptyString /\ py_float (ans_p4 a) = inl e) /\
  (ans_age a = EmptyString -> ans_p1 a = EmptyString ->
   ans_p2 a = EmptyString -> ans_p3 a = EmptyString ->
   ans_p4 a = EmptyString ->
   interactive_patient py_int py_float a
     = inr (interactive_dict a 50 (5 # 10) 1 0 0)).
Proof.
  assert (Hint : forall s d e, int_or py_int s d = inl e ->
                               s <> EmptyString /\ py_int s = inl e).
  { intros s d e. unfold int_or. case_bool_decide; [discriminate | tauto]. }
  assert (Hfloat : forall s d e, float_or py_float s d = inl e ->
                                 s <> EmptyString /\ py_float s = inl e).
  { intros s d e. unfold float_or. case_bool_decide; [discriminate | tauto]. }
  split.
  - intros e H. unfold interactive_patient in H.
    destruct (int_or py_int (ans_age a) 50) as [e0 | age] eqn:E0; simpl in H.
    { injection H as ->. left. eauto. }
    destruct (float_or py_float (ans_p1 a) (5 # 10)) as [e1 | p1] eqn:E1;
      simpl in H.
    { injection H as ->. right; left. eauto. }
    destruct (float_or py_float (ans_p2 a) 1) as [e2 | p2] eqn:E2; simpl in H.
    { injection H as ->. right; right; left. eauto. }
    destruct (float_or py_float (ans_p3 a) 0) as [e3 | p3] eqn:E3; simpl in H.
    { injection H as ->. right; right; right; left. eauto. }
    destruct (float_or py_float (ans_p4 a) 0) as [e4 | p4] eqn:E4; simpl in H.
    { injection H as ->. right; right; right; right. eauto. }
    discriminate H.
  - intros H0 H1 H2 H3 H4. apply interactive_patient_inr.
    exists 50%Z, (5 # 10), 1, 0, 0. unfold int_or, float_or.
    rewrite H0, H1, H2, H3, H4. repeat split; reflexivity.
Qed.

Lemma tumour_stage_listed_fixed (t : string) :
  t ∈ ["I"; "II"; "III"] -> validate_tumour_stage t = inr t.
Proof.
  rewrite !elem_of_cons, elem_of_nil.
  intros [-> | [-> | [-> | []]]]; reflexivity.
Qed.

Lemma status_listed_fixed (s : string) :
  s ∈ ["Positive"; "Negative"] -> validate_status s = inr s.
Proof.
  rewrite !elem_of_cons, elem_of_nil. intros [-> | [-> | []]]; reflexivity.
Qed.

(** X20. The two entry points agree. The values the interactive mode
    puts in its patient dict, submitted to the API, validate exactly when
    the age is between 18 and 100 and the four protein levels between -5
    and 5, bounds that the interactive mode itself does not check; and
    when they validate, [to_model_dict] gives the very dict of the
    interactive mode, so the API answers with the interactive mode's
    result, or with status 500 and the text of its exception. *)
Theorem interactive_agrees_with_api
    (float_str : Q -> string) (art : Artifacts)
    (a : Answers) (age : Z) (p1 p2 p3 p4 : Q) :
  int_or py_int (ans_age a) 50 = inr age ->
  float_or py_float (ans_p1 a) (5 # 10) = inr p1 ->
  float_or py_float (ans_p2 a) 1 = inr p2 ->
  float_or py_float (ans_p3 a) 0 = inr p3 ->
  float_or py_float (ans_p4 a) 0 = inr p4 ->
  let raw := interactive_submission a age p1 p2 p3 p4 in
  ((exists p, validate raw = inr p) <->
   (18 <= age <= 100)%Z /\ -5 <= p1 <= 5 /\ -5 <= p2 <= 5 /\
   -5 <= p3 <= 5 /\ -5 <= p4 <= 5) /\
  (forall p,
     validate raw = inr p ->
     to_model_dict p = inr (interactive_dict a age p1 p2 p3 p4) /\
     match interactive_mode py_int py_float float_str art a with
     | inr result => post_predict float_str art raw = Ok200 result
     | inl e =>
         post_predict float_str art raw =
           HTTPException 500 ("Prediction error: " +:+ str_exn e)
     end).
Proof.
  intros Ha H1 H2 H3 H4 raw.
  set (stage := one_of (ans_stage a) ["I"; "II"; "III"] "II").
  set (er := one_of (ans_er a) ["Positive"; "Negative"] "Positive").
  set (pr := one_of (ans_pr a) ["Positive"; "Negative"] "Positive").
  set (her2 := one_of (ans_her2 a) ["Positive"; "Negative"] "Negative").
  set (p0 := {| Age := age; Gender := "FEMALE";
                Protein1 := p1; Protein2 := p2; Protein3 := p3; Protein4 := p4;
                Tumour_Stage := stage;
                Histology := default "Infiltrating Ductal Carcinoma"
                               (histology_map !! ans_hist a);
                ER_status := er; PR_status := pr; HER2_status := her2;
                Surgery_type := default "Lumpectomy"
                                  (surgery_map !! ans_surg a) |}).
  assert (Hstage : validate_tumour_stage stage = inr stage).
  { apply tumour_stage_listed_fixed, one_of_allowed.
    rewrite !elem_of_cons. tauto. }
  assert (Her : validate_status er = inr er /\ validate_status pr = inr pr
                /\ validate_status her2 = inr her2).
  { repeat split; apply status_listed_fixed, one_of_allowed;
      rewrite !elem_of_cons; tauto. }
  destruct Her as (Her & Hpr & Hher2).
  assert (Hiff : forall p, validate raw = inr p <->
            p = p0 /\ (18 <= age <= 100)%Z /\ -5 <= p1 <= 5 /\ -5 <= p2 <= 5 /\
            -5 <= p3 <= 5 /\ -5 <= p4 <= 5).
  { intros p. rewrite validate_inr. unfold raw, interactive_submission. simpl.
    fold stage er pr her2.
    unfold field, validator, any_str.
    rewrite Hstage, Her, Hpr, Hher2.
    change (validate_gender "FEMALE") with (@inr exn string "FEMALE").
    split.
    - intros (Hf0 & Hf1 & Hf2 & Hf3 & Hf4 & Hf5 & Hf6 & Hf7 & Hf8 & Hf9 & Hf10 & Hf11).
      destruct (int_ge_le 18 100 age) as [? | n] eqn:E0; [discriminate |].
      destruct (float_ge_le (-5) 5 p1) as [? | x1] eqn:E1; [discriminate |].
      destruct (float_ge_le (-5) 5 p2) as [? | x2] eqn:E2; [discriminate |].
      destruct (float_ge_le (-5) 5 p3) as [? | x3] eqn:E3; [discriminate |].
      destruct (float_ge_le (-5) 5 p4) as [? | x4] eqn:E4; [discriminate |].
      apply int_ge_le_inr in E0 as [-> ?].
      apply float_ge_le_inr in E1 as [-> ?], E2 as [-> ?],
        E3 as [-> ?], E4 as [-> ?].
      repeat split; try tauto.
      destruct p. simpl in *. unfold p0.
      assert (Hg : Gender0 = "FEMALE") by (injection Hf1 as <-; reflexivity).
      congruence.
    - intros (-> & Hr0 & Hr1 & Hr2 & Hr3 & Hr4). simpl.
      rewrite (proj2 (int_ge_le_inr 18 100 age age)) by tauto.
      rewrite (proj2 (float_ge_le_inr (-5) 5 p1 p1)) by tauto.
      rewrite (proj2 (float_ge_le_inr (-5) 5 p2 p2)) by tauto.
      rewrite (proj2 (float_ge_le_inr (-5) 5 p3 p3)) by tauto.
      rewrite (proj2 (float_ge_le_inr (-5) 5 p4 p4)) by tauto.
      repeat split; reflexivity. }
  split.
  - split.
    + intros [p Hp]. apply Hiff in Hp. tauto.
    + intros Hr. exists p0. apply Hiff. tauto.
  - intros p Hp. pose proof Hp as Hp'. apply Hiff in Hp' as [-> _].
    assert (Hdict : to_model_dict p0 = inr (interactive_dict a age p1 p2 p3 p4)).
    { rewrite to_model_dict_spec. reflexivity. }
    split; [exact Hdict |].
    assert (Hpat : interactive_patient py_int py_float a
                   = inr (interactive_dict a age p1 p2 p3 p4)).
    { apply interactive_patient_inr. now exists age, p1, p2, p3, p4. }
    unfold interactive_mode, post_predict, predict.
    rewrite Hpat, Hp, Hdict. simpl.
    now destruct (predict_survival float_str art
                    (interactive_dict a age p1 p2 p3 p4)).
Qed.

End Interactive.


Lemma interactive_number_errors_witness :
  (interactive_patient CliExamples.py_int CliExamples.py_float
     CliExamples.bad_session
     = inl (ValueError "invalid literal for int() with base 10: 'sixty'")) /\
  (ans_age CliExamples.all_defaults = EmptyString /\
   interactive_patient CliExamples.py_int CliExamples.py_float
     CliExamples.all_defaults
     = inr (interactive_dict CliExamples.all_defaults 50 (5 # 10) 1 0 0)).
Proof.
  split; [vm_compute; reflexivity |].
  split; [reflexivity |].
  exact (proj2 (interactive_number_errors CliExamples.py_int CliExamples.py_float
                  CliExamples.all_defaults)
           eq_refl eq_refl eq_refl eq_refl eq_refl).
Defined.

Lemma interactive_agrees_with_api_witness :
  int_or CliExamples.py_int (ans_age CliExamples.session) 50 = inr 68%Z /\
  exists p,
    validate (interactive_submission CliExamples.session
                68 (-5 # 10) (8 # 10) 0 0) = inr p /\
    to_model_dict p
      = inr (interactive_dict CliExamples.session 68 (-5 # 10) (8 # 10) 0 0).
Proof.
  assert (Ha : int_or CliExamples.py_int (ans_age CliExamples.session) 50
               = inr 68%Z) by (vm_compute; reflexivity).
  split; [exact Ha |].
  destruct (interactive_agrees_with_api CliExamples.py_int CliExamples.py_float
              Sklearn.float_str Examples.bundle CliExamples.session
              68 (-5 # 10) (8 # 10) 0 0 Ha)%Q as [Hiff Hall];
    try (vm_compute; reflexivity).
  destruct (proj2 Hiff) as [p Hp].
  { repeat split; vm_compute; discriminate. }
  exists p. split; [exact Hp | exact (proj1 (Hall p Hp))].
Defined.

(** ** The batch mode *)

Section Batch.

Variable float_str : Q -> string.
Variable art : Artifacts.

Lemma batch_loop_inr (rows : list (gmap string value)) :
  forall (idx : nat) (acc results : list BatchRow),
    batch_loop float_str art idx rows acc = inr results ->
    exists new,
      results = (acc ++ new)%list /\
      length new = length rows /\
      forall i patient,
        rows !! i = Some patient ->
        exists result,
          predict_survival float_str art patient = inr result /\
          new !! i = Some (batch_row (idx + i) result).
Proof.
  induction rows as [| patient rows IH]; intros idx acc results; simpl.
  - intros [= <-]. exists []. rewrite app_nil_r.
    repeat split. intros i p Hp. inversion Hp.
  - destruct (predict_survival float_str art patient) as [e | result] eqn:E;
      simpl; [discriminate |].
    intros H. apply IH in H as (new & -> & Hlen & Hrows).
    exists (batch_row idx result :: new). split; [| split].
    + now rewrite <- app_assoc.
    + simpl. now rewrite Hlen.
    + intros [| i] p Hp; simpl in Hp.
      * injection Hp as <-. exists result. split; [exact E |].
        now rewrite Nat.add_0_r.
      * destruct (Hrows i p Hp) as (r & Hr & Hnew). exists r.
        split; [exact Hr |]. simpl.
        now rewrite Nat.add_succ_r.
Qed.

Lemma batch_loop_inl (rows : list (gmap string value)) :
  forall (idx : nat) (acc : list BatchRow) (e : exn),
    batch_loop float_str art idx rows acc = inl e ->
    exists i patient,
      rows !! i = Some patient /\
      predict_survival float_str art patient = inl e /\
      forall j patient',
        (j < i)%nat -> rows !! j = Some patient' ->
        exists result, predict_survival float_str art patient' = inr result.
Proof.
  induction rows as [| patient rows IH]; intros idx acc e; simpl.
  - discriminate.
  - destruct (predict_survival float_str art patient) as [e' | result] eqn:E;
      simpl.
    + intros [= <-]. exists 0%nat, patient. repeat split; [exact E |].
      intros j p Hj. lia.
    + intros H. apply IH in H as (i & p & Hp & He & Hbefore).
      exists (S i), p. repeat split; [exact Hp | exact He |].
      intros [| j] p' Hj Hp'; simpl in Hp'.
      * injection Hp' as <-. now exists result.
      * apply (Hbefore j p'); [lia | exact Hp'].
Qed.

(** X21. When the batch mode writes its output file, the file has one row
    per patient of the input, in the input's order, numbered from 1, and
    each row carries the days, months, tier and recommendation of that
    patient's own prediction. *)
Theorem batch_rows_in_order
    (rows : list (gmap string value)) (results : list BatchRow) :
  saved (batch_predict float_str art rows) = Some results ->
  length results = length rows /\
  forall i patient,
    rows !! i = Some patient ->
    exists result,
      predict_survival float_str art patient = inr result /\
      results !! i =
        Some {| Patient_ID := Z.of_nat i + 1;
                Predicted_Days := predicted_days result;
                Predicted_Months := predicted_months result;
                Risk_Category := risk_category result;
                Recommendation := recommendation result |}.
Proof.
  unfold batch_predict.
  destruct (batch_loop float_str art 0 rows []) as [e | res] eqn:E; simpl;
    [discriminate |].
  intros [= <-].
  apply batch_loop_inr in E as (new & -> & Hlen & Hrows).
  split; [exact Hlen |]. exact Hrows.
Qed.

(** X22. The batch mode is all or nothing on the predictions and fails
    on an empty file: if the prediction of any patient raises, no output
    file is written and the exception shown is that of the first patient
    that fails; conversely a file that was not written means such a
    patient exists. For a file without patients the (empty) output file
    is written and the run then ends with the KeyError of the missing
    column 'Risk_Category'. *)
Theorem batch_all_or_nothing (rows : list (gmap string value)) :
  (forall i patient e,
     rows !! i = Some patient ->
     predict_survival float_str art patient = inl e ->
     saved (batch_predict float_str art rows) = None) /\
  (saved (batch_predict float_str art rows) = None ->
   exists i patient e,
     rows !! i = Some patient /\
     predict_survival float_str art patient = inl e /\
     distribution (batch_predict float_str art rows) = inl e /\
     forall j patient',
       (j < i)%nat -> rows !! j = Some patient' ->
       exists result, predict_survival float_str art patient' = inr result) /\
  (rows = [] ->
   batch_predict float_str art rows =
     {| saved := Some []; distribution := inl (KeyError "'Risk_Category'") |}).
Proof.
  unfold batch_predict.
  destruct (batch_loop float_str art 0 rows []) as [e | res] eqn:E; simpl.
  - split; [reflexivity |]. split.
    + intros _. apply batch_loop_inl in E as (i & p & Hp & He & Hbefore).
      now exists i, p, e.
    + intros ->. discriminate E.
  - split; [| split].
    + intros i p e Hp He.
      apply batch_loop_inr in E as (new & _ & _ & Hrows).
      destruct (Hrows i p Hp) as (r & Hr & _). congruence.
    + discriminate.
    + intros ->. simpl in E. injection E as <-. reflexivity.
Qed.

End Batch.

Lemma batch_rows_in_order_witness :
  saved (batch_predict Sklearn.float_str Examples.bundle
           [CliExamples.row_a; CliExamples.row_b])
    = Some [ {| Patient_ID := 1; Predicted_Days := 78;
                Predicted_Months := 26 # 10; Risk_Category := "HIGH RISK";
                Recommendation :=
                  "Immediate intensive care and close monitoring required" |};
             {| Patient_ID := 2; Predicted_Days := 100;
                Predicted_Months := 33 # 10; Risk_Category := "HIGH RISK";
                Recommendation :=
                  "Immediate intensive care and close monitoring required" |} ] /\
  length [CliExamples.row_a; CliExamples.row_b] = 2%nat.
Proof.
  assert (H : saved (batch_predict Sklearn.float_str Examples.bundle
           [CliExamples.row_a; CliExamples.row_b])
    = Some [ {| Patient_ID := 1; Predicted_Days := 78;
                Predicted_Months := 26 # 10; Risk_Category := "HIGH RISK";
                Recommendation :=
                  "Immediate intensive care and close monitoring required" |};
             {| Patient_ID := 2; Predicted_Days := 100;
                Predicted_Months := 33 # 10; Risk_Category := "HIGH RISK";
                Recommendation :=
                  "Immediate intensive care and close monitoring required" |} ])
    by (vm_compute; reflexivity).
  split; [exact H |].
  symmetry.
  exact (proj1 (batch_rows_in_order Sklearn.float_str Examples.bundle _ _ H)).
Defined.

Lemma batch_all_or_nothing_witness :
  [CliExamples.row_a; CliExamples.row_bad] !! 1%nat = Some CliExamples.row_bad /\
  predict_survival Sklearn.float_str Examples.bundle CliExamples.row_bad
    = inl (ValueError "could not convert string to float: 'n/a'") /\
  saved (batch_predict Sklearn.float_str Examples.bundle
           [CliExamples.row_a; CliExamples.row_bad]) = None.
Proof.
  assert (H1 : [CliExamples.row_a; CliExamples.row_bad] !! 1%nat
               = Some CliExamples.row_bad) by reflexivity.
  assert (H2 : predict_survival Sklearn.float_str Examples.bundle
                 CliExamples.row_bad
               = inl (ValueError "could not convert string to float: 'n/a'"))
    by (vm_compute; reflexivity).
  split; [exact H1 | split; [exact H2 |]].
  exact (proj1 (batch_all_or_nothing Sklearn.float_str Examples.bundle _)
           1%nat _ _ H1 H2).
Defined.

(** ** The risk distribution of a batch *)

Section Distribution.

Variable float_str : Q -> string.
Variable art : Artifacts.






End Distribution.


Lemma request_outcomes_witness :
  post_predict Sklearn.float_str Examples.stale_bundle Examples.raw_patient1 =
    HTTPException 500
      "Prediction error: X has 2 features, but StandardScaler is expecting 3 features as input." /\
  500%Z = 500%Z.
Proof.
  assert (H : post_predict Sklearn.float_str Examples.stale_bundle
                Examples.raw_patient1 =
    HTTPException 500
      "Prediction error: X has 2 features, but StandardScaler is expecting 3 features as input.")
    by (vm_compute; reflexivity).
  split; [exact H |].
  exact (proj1 (proj2 (proj2 (request_outcomes Sklearn.float_str
                                Examples.stale_bundle Examples.raw_patient1))
                  _ _ H)).
Defined.
